(** * unraid_mqtt_stats: sensor model and override engine

    Shallow embedding of [src/src/config.rs] and [src/src/unraid_stats.rs]:
    the [Sensor] entity, [Sensor::merge], the wildcard-key derivation and the
    override loop of [UnraidStats::sensors], the built-in catalogue
    ([UnraidStats::sensors], [UnraidStats::container_sensors]), the
    discovery-config document, [parse_disk_usage], [calculate_cpu_percent]
    and the memory-usage system reporter; then the other shell-output
    parsers, the command, Docker and container reporters with the stats
    stash, the publishing paths of [UnraidStats], the sensor dump,
    [MqttConfig] ([src/src/mqtt_config.rs]), the control flow of [main]
    and the lists of [src/src/docker_stats.rs].

    Strings are [String.string] (ASCII model of Rust's UTF-8 [str]), Rust
    [HashMap<String, _>] is stdpp's [gmap string _], and [f64] is the
    IEEE-754 binary64 specification [spec_float] of the Standard Library
    (precision 53, emax 1024). *)

From Stdlib Require Import ZArith Lia Ascii String.
From Stdlib Require Import Floats.SpecFloat.
From stdpp Require Import base list gmap strings option.

Local Open Scope string_scope.
Local Set Warnings "-register-all".

(* ------------------------------------------------------------------ *)
(** ** String primitives used by the source *)

(** [str::split(pred)]: the segments between characters satisfying
    [pred]; never empty ([""].split('_') yields one empty segment). *)
Fixpoint split_by (pred : ascii -> bool) (s : string) : list string :=
  match s with
  | EmptyString => [EmptyString]
  | String a s' =>
      let r := split_by pred s' in
      if pred a then EmptyString :: r
      else match r with
           | h :: t => String a h :: t
           | [] => [String a EmptyString]
           end
  end.

(** [str::split(c)] for a character [c]. *)
Definition split_char (c : ascii) (s : string) : list string :=
  split_by (fun a => Ascii.eqb a c) s.

(** [str::contains(pat)] for a string pattern. *)
Fixpoint contains (pat s : string) : bool :=
  String.prefix pat s ||
  match s with
  | EmptyString => false
  | String _ s' => contains pat s'
  end.

(** [Option::is_some]. *)
Definition is_some {A} (o : option A) : bool :=
  match o with Some _ => true | None => false end.

(** [c] occurs in [s]. *)
Fixpoint has_char (c : ascii) (s : string) : bool :=
  match s with
  | EmptyString => false
  | String a s' => Ascii.eqb a c || has_char c s'
  end.

(** [str::starts_with]. *)
Definition starts_with (s pat : string) : bool := String.prefix pat s.

(** [str::trim_start_matches(c)] for a single character. *)
Fixpoint trim_start_matches (c : ascii) (s : string) : string :=
  match s with
  | String a s' => if Ascii.eqb a c then trim_start_matches c s' else s
  | EmptyString => EmptyString
  end.

(* ------------------------------------------------------------------ *)
(** ** Data model ([config.rs]) *)

Inductive DeviceClass :=
  | Date | Enum | Timestamp | ApparentPower | Aqi | Area
  | AtmosphericPressure | Battery | BloodGlucoseConcentration
  | CarbonMonoxide | CarbonDioxide | Conductivity | Current | DataRate
  | DataSize | Distance | Duration | Energy | EnergyDistance
  | EnergyStorage | Frequency | Gas | Humidity | Illuminance | Irradiance
  | Moisture | Monetary | NitrogenDioxide | NitrogenMonoxide
  | NitrousOxide | Ozone | Ph | Pm1 | Pm10 | Pm25 | PowerFactor | Power
  | Precipitation | PrecipitationIntensity | Pressure | ReactiveEnergy
  | ReactivePower | SignalStrength | SoundPressure | Speed
  | SulphurDioxide | Temperature | VolatileOrganicCompounds
  | VolatileOrganicCompoundsParts | Voltage | Volume | VolumeStorage
  | VolumeFlowRate | Water | Weight | WindDirection | WindSpeed.

(** [serde(rename_all = "snake_case")] names used by [json!(device_class)]. *)
Definition device_class_name (d : DeviceClass) : string :=
  match d with
  | Date => "date" | Enum => "enum" | Timestamp => "timestamp"
  | ApparentPower => "apparent_power" | Aqi => "aqi" | Area => "area"
  | AtmosphericPressure => "atmospheric_pressure" | Battery => "battery"
  | BloodGlucoseConcentration => "blood_glucose_concentration"
  | CarbonMonoxide => "carbon_monoxide" | CarbonDioxide => "carbon_dioxide"
  | Conductivity => "conductivity" | Current => "current"
  | DataRate => "data_rate" | DataSize => "data_size"
  | Distance => "distance" | Duration => "duration" | Energy => "energy"
  | EnergyDistance => "energy_distance" | EnergyStorage => "energy_storage"
  | Frequency => "frequency" | Gas => "gas" | Humidity => "humidity"
  | Illuminance => "illuminance" | Irradiance => "irradiance"
  | Moisture => "moisture" | Monetary => "monetary"
  | NitrogenDioxide => "nitrogen_dioxide"
  | NitrogenMonoxide => "nitrogen_monoxide"
  | NitrousOxide => "nitrous_oxide" | Ozone => "ozone" | Ph => "ph"
  | Pm1 => "pm1" | Pm10 => "pm10" | Pm25 => "pm25"
  | PowerFactor => "power_factor" | Power => "power"
  | Precipitation => "precipitation"
  | PrecipitationIntensity => "precipitation_intensity"
  | Pressure => "pressure" | ReactiveEnergy => "reactive_energy"
  | ReactivePower => "reactive_power" | SignalStrength => "signal_strength"
  | SoundPressure => "sound_pressure" | Speed => "speed"
  | SulphurDioxide => "sulphur_dioxide" | Temperature => "temperature"
  | VolatileOrganicCompounds => "volatile_organic_compounds"
  | VolatileOrganicCompoundsParts => "volatile_organic_compounds_parts"
  | Voltage => "voltage" | Volume => "volume"
  | VolumeStorage => "volume_storage" | VolumeFlowRate => "volume_flow_rate"
  | Water => "water" | Weight => "weight"
  | WindDirection => "wind_direction" | WindSpeed => "wind_speed"
  end.

Inductive PostProcess :=
  | TrimWhitespace | ParseFloat | ParseInteger | ExtractNumber
  | ToUpperCase | ToLowerCase.

Module SystemSensorReporterStat.
Inductive t := MemoryUsage | MemoryUsed | MemoryTotal | CpuUsage | Uptime.
End SystemSensorReporterStat.

Module DockerSensorReporterStat.
Inductive t :=
  ImagesCount | ImagesSize | VolumesCount | RunningCount | UnhealthyCount.
End DockerSensorReporterStat.

Module DockerContainerSensorReporterStat.
Inductive t := CpuUsage | MemoryUsage | Status.
End DockerContainerSensorReporterStat.

(** The fields of bollard's [ContainerSummary] the code reads. *)
Record ContainerSummary := {
  cs_id : option string;
  cs_names : option (list string);
  cs_status : option string;
}.

(** The closures stored in [CommandSensorReporter::transform]: the ones
    built from a [PostProcess] in [From<&CommandSensor>], and the parsing
    closures of the built-in command sensors. *)
Inductive Transform :=
  | FromPostProcess (p : option PostProcess)
  | DiskUsagePercent | DiskTotal | DiskAvailable | CpuTemp | ArrayStatus.

Record CommandSensorReporter := {
  csr_command : string;
  csr_args : option (list string);
  csr_transform : option Transform;
}.

(** [SensorReporterType]; the shared handles ([Arc<System>], [Arc<Docker>],
    the stats stash) carry no data the claims read and are left out. *)
Inductive SensorReporterType :=
  | System (name : SystemSensorReporterStat.t)
  | Command (r : CommandSensorReporter)
  | DockerContainer (container : ContainerSummary)
                    (stat : DockerContainerSensorReporterStat.t)
  | Docker (stat : DockerSensorReporterStat.t).

Record Sensor := {
  id : string;
  name : string;
  unit : option string;
  device_class : option DeviceClass;
  icon : option string;
  disabled : bool;
  reporter : option SensorReporterType;
}.

(** [Sensor { id, name, ..Default::default() }]. *)
Definition sensor_default (i n : string) : Sensor :=
  {| id := i; name := n; unit := None; device_class := None; icon := None;
     disabled := false; reporter := None |}.

Record SensorConfig := {
  sc_id : string;
  sc_name : option string;
  sc_unit : option string;
  sc_device_class : option DeviceClass;
  sc_icon : option string;
  sc_disabled : bool;
}.

Record CommandSensor := {
  cmd_id : string;
  cmd_name : string;
  cmd_unit : option string;
  cmd_device_class : option DeviceClass;
  cmd_icon : option string;
  cmd_command : string;
  cmd_args : option (list string);
  cmd_post_process : option PostProcess;
  cmd_disabled : bool;
}.

Inductive Sensors :=
  | SensorOverride (c : SensorConfig)
  | CommandS (c : CommandSensor).

(** [Config { sensors: HashMap<String, Sensors> }]. *)
Record Config := { sensors : gmap string Sensors }.

(** [deserialize_sensors]: every entry's [id] is set to its map key. *)
Definition set_sensors_id (k : string) (v : Sensors) : Sensors :=
  match v with
  | SensorOverride s =>
      SensorOverride {| sc_id := k; sc_name := sc_name s; sc_unit := sc_unit s;
                        sc_device_class := sc_device_class s;
                        sc_icon := sc_icon s; sc_disabled := sc_disabled s |}
  | CommandS s =>
      CommandS {| cmd_id := k; cmd_name := cmd_name s; cmd_unit := cmd_unit s;
                  cmd_device_class := cmd_device_class s;
                  cmd_icon := cmd_icon s; cmd_command := cmd_command s;
                  cmd_args := cmd_args s;
                  cmd_post_process := cmd_post_process s;
                  cmd_disabled := cmd_disabled s |}
  end.

Definition deserialize_sensors (m : gmap string Sensors) : gmap string Sensors :=
  map_imap (fun k v => Some (set_sensors_id k v)) m.

Definition sensors_id (v : Sensors) : string :=
  match v with SensorOverride s => sc_id s | CommandS s => cmd_id s end.

(** A configuration as [load_config] returns it: ids equal map keys. *)
Definition config_wf (c : Config) : Prop :=
  forall k v, sensors c !! k = Some v -> sensors_id v = k.

(** [impl From<&CommandSensor> for Sensor]. *)
Definition sensor_of_command (c : CommandSensor) : Sensor :=
  {| id := cmd_id c; name := cmd_name c; unit := cmd_unit c;
     device_class := cmd_device_class c; icon := cmd_icon c;
     disabled := cmd_disabled c;
     reporter := Some (Command {| csr_command := cmd_command c;
                                  csr_args := cmd_args c;
                                  csr_transform :=
                                    Some (FromPostProcess (cmd_post_process c)) |}) |}.

(** [Sensor::merge]. *)
Definition merge (self : Sensor) (other : SensorConfig) : Sensor :=
  if negb (String.eqb (id self) (sc_id other)) && negb (contains "_*_" (sc_id other))
  then self
  else
    {| id := id self;
       name := match sc_name other with Some n => n | None => name self end;
       unit := if is_some (sc_unit other) then sc_unit other else unit self;
       device_class := if is_some (sc_device_class other)
                       then sc_device_class other else device_class self;
       icon := if is_some (sc_icon other) then sc_icon other else icon self;
       disabled := if sc_disabled other then sc_disabled other else disabled self;
       reporter := reporter self |}.

(* ------------------------------------------------------------------ *)
(** ** Built-in catalogue ([unraid_stats.rs]) *)

(** The fields of [UnraidStats] the sensor list depends on. *)
Record UnraidStats := {
  sensor_config : option Config;
  device_name : string;
}.

Definition system_sensor (i n : string) (u : option string)
    (dc : option DeviceClass) (ic : option string)
    (st : SystemSensorReporterStat.t) : Sensor :=
  {| id := i; name := n; unit := u; device_class := dc; icon := ic;
     disabled := false; reporter := Some (System st) |}.

Definition command_sensor (i n : string) (u : option string)
    (dc : option DeviceClass) (ic : option string) (cmd : string)
    (args : option (list string)) (tr : Transform) : Sensor :=
  {| id := i; name := n; unit := u; device_class := dc; icon := ic;
     disabled := false;
     reporter := Some (Command {| csr_command := cmd; csr_args := args;
                                  csr_transform := Some tr |}) |}.

Definition docker_sensor (i n : string) (u : option string)
    (dc : option DeviceClass) (ic : option string)
    (st : DockerSensorReporterStat.t) : Sensor :=
  {| id := i; name := n; unit := u; device_class := dc; icon := ic;
     disabled := false; reporter := Some (Docker st) |}.

(** The fixed list built at the start of [UnraidStats::sensors]. *)
Definition builtin_sensors : list Sensor :=
  [ system_sensor "cpu_usage" "CPU Usage" (Some "%") None None
      SystemSensorReporterStat.CpuUsage;
    system_sensor "memory_usage" "Memory Usage" (Some "%") None None
      SystemSensorReporterStat.MemoryUsage;
    system_sensor "memory_total" "Memory Total" (Some "B") (Some DataSize)
      (Some "memory") SystemSensorReporterStat.MemoryTotal;
    system_sensor "memory_used" "Memory Used" (Some "B") (Some DataSize)
      (Some "memory") SystemSensorReporterStat.MemoryUsed;
    command_sensor "disk_usage" "Disk Usage" (Some "%") None None
      "df" (Some ["-BM"; "/mnt/user"]) DiskUsagePercent;
    command_sensor "disk_total" "Disk Total" (Some "B") (Some DataSize)
      (Some "data_size") "df" (Some ["/mnt/user"]) DiskTotal;
    command_sensor "disk_available" "Disk Available" (Some "B") (Some DataSize)
      (Some "data_size") "df" (Some ["/mnt/user"]) DiskAvailable;
    command_sensor "cpu_temp" "CPU Temperature" (Some "°C") (Some Temperature)
      None "sensor" None CpuTemp;
    system_sensor "uptime" "Uptime" None None (Some "duration")
      SystemSensorReporterStat.Uptime;
    command_sensor "array_status" "Array Status" None None None
      "mdcmd" (Some ["status"]) ArrayStatus;
    docker_sensor "docker_containers_running" "Docker Containers Running"
      None None (Some "docker") DockerSensorReporterStat.RunningCount;
    docker_sensor "docker_containers_unhealthy" "Docker Containers Unhealthy"
      None None (Some "docker") DockerSensorReporterStat.UnhealthyCount;
    docker_sensor "docker_images_count" "Docker Images"
      None None (Some "docker") DockerSensorReporterStat.ImagesCount;
    docker_sensor "docker_images_size" "Docker Images Size"
      (Some "B") (Some DataSize) (Some "data_size")
      DockerSensorReporterStat.ImagesSize;
    docker_sensor "docker_volumes_count" "Docker Volumes"
      None None (Some "docker") DockerSensorReporterStat.VolumesCount ].

(** [container_name] in [UnraidStats::container_sensors]: the first name
    without its leading slashes, or ["unknown"]. *)
Definition container_name (c : ContainerSummary) : string :=
  match cs_names c with
  | Some (n :: _) => trim_start_matches "/" n
  | _ => "unknown"
  end.

Definition container_sensor (c : ContainerSummary) (i n : string)
    (u : option string) (dc : option DeviceClass) (ic : string)
    (st : DockerContainerSensorReporterStat.t) : Sensor :=
  {| id := i; name := n; unit := u; device_class := dc; icon := Some ic;
     disabled := false; reporter := Some (DockerContainer c st) |}.

(** [UnraidStats::container_sensors]. *)
Definition container_sensors (self : UnraidStats) (c : ContainerSummary)
    : list Sensor :=
  let cn := container_name c in
  [ container_sensor c ("dockercontainer_" ++ cn ++ "_cpu")
      (device_name self ++ " Docker " ++ cn ++ " CPU") (Some "%") None
      "mdi:cpu-64-bit" DockerContainerSensorReporterStat.CpuUsage;
    container_sensor c ("dockercontainer_" ++ cn ++ "_memory")
      (device_name self ++ " Docker " ++ cn ++ " Memory") (Some "B")
      (Some DataSize) "mdi:memory" DockerContainerSensorReporterStat.MemoryUsage;
    container_sensor c ("dockercontainer_" ++ cn ++ "_uptime")
      (device_name self ++ " Docker " ++ cn ++ " Uptime") None None
      "mdi:docker" DockerContainerSensorReporterStat.Status ].

(** The list before overrides: built-ins, then [sensors.append(&mut containters)]. *)
Definition catalog (self : UnraidStats) (containers : list ContainerSummary)
    : list Sensor :=
  builtin_sensors ++ flat_map (container_sensors self) containers.

(* ------------------------------------------------------------------ *)
(** ** Override engine ([UnraidStats::sensors]) *)

(** [star_id]: [id.split('_')], [nth(0)] and then [last()] of the rest. *)
Definition star_id (i : string) : string :=
  let star_name := split_char "_" i in
  default "" (head star_name) ++ "_*_" ++ default "" (list.last (tail star_name)).

(** One iteration of [for sensor in sensors.iter_mut()]. *)
Definition override_one (cfg : Config) (sensor : Sensor) : Sensor :=
  let sensor1 :=
    match sensors cfg !! star_id (id sensor) with
    | Some (SensorOverride update) => merge sensor update
    | _ => sensor
    end in
  match sensors cfg !! id sensor1 with
  | Some (SensorOverride update) => merge sensor1 update
  | _ => sensor1
  end.

(** [for sensor in sensor_config.sensors.values()]: command entries, in the
    map's iteration order (here the order of [map_to_list]). *)
Definition command_sensors (cfg : Config) : list Sensor :=
  omap (fun kv : string * Sensors =>
          match kv.2 with
          | CommandS c => Some (sensor_of_command c)
          | SensorOverride _ => None
          end) (map_to_list (sensors cfg)).

Definition apply_config (cfg : option Config) (l : list Sensor) : list Sensor :=
  match cfg with
  | Some c => map (override_one c) l ++ command_sensors c
  | None => l
  end.

(** [UnraidStats::sensors], given the containers [self.containers()] listed
    (an error there is [unwrap_or_default], the empty list). *)
Definition unraid_sensors (self : UnraidStats) (containers : list ContainerSummary)
    : list Sensor :=
  apply_config (sensor_config self) (catalog self containers).

(* ------------------------------------------------------------------ *)
(** ** Discovery document ([Sensor::disovery_config]) *)

(** The part of [serde_json::Value] the document uses. *)
Inductive Value :=
  | VNull
  | VString (s : string)
  | VArray (l : list Value)
  | VObject (fields : list (string * Value)).

Definition json_opt_string (o : option string) : Value :=
  match o with Some s => VString s | None => VNull end.

(** [value[k] = v] on an object: replace the entry, or add it. *)
Fixpoint obj_set (k : string) (v : Value) (l : list (string * Value))
    : list (string * Value) :=
  match l with
  | [] => [(k, v)]
  | (k', v') :: l' =>
      if String.eqb k k' then (k, v) :: l' else (k', v') :: obj_set k v l'
  end.

Definition value_set (k : string) (v : Value) (o : Value) : Value :=
  match o with
  | VObject l => VObject (obj_set k v l)
  | VNull => VObject [(k, v)]
  | _ => o
  end.

Definition value_get (k : string) (o : Value) : option Value :=
  match o with
  | VObject l => snd <$> List.find (fun kv => String.eqb k kv.1) l
  | _ => None
  end.

Definition sensor_topic (self : Sensor) (node_id : string) : string :=
  node_id ++ "/sensor/" ++ id self ++ "/state".

Definition discovery_topic (self : Sensor) (discovery_prefix node_id : string)
    : string :=
  discovery_prefix ++ "/sensor/" ++ node_id ++ "/" ++ id self ++ "/config".

(** [Sensor::disovery_config] (the source's spelling). *)
Definition disovery_config (self : Sensor) (device_name node_id : string)
    (device_info : Value) : Value :=
  let config :=
    VObject [("name", VString (device_name ++ " " ++ name self));
             ("state_topic", VString (sensor_topic self node_id));
             ("unique_id", VString (node_id ++ "_" ++ id self));
             ("device", device_info);
             ("unit_of_measurement", json_opt_string (unit self))] in
  let config :=
    match device_class self with
    | Some dc => value_set "device_class" (VString (device_class_name dc)) config
    | None => config
    end in
  match icon self with
  | Some icon_str => value_set "icon" (VString ("mdi:" ++ icon_str)) config
  | None => config
  end.

(* ------------------------------------------------------------------ *)
(** ** Floating point ([f64] as binary64) *)

Definition f64 := spec_float.

(** [n as f64] for an integer [n]: rounded to nearest, ties to even. *)
Definition f64_of_Z (n : Z) : f64 := binary_normalize 53 1024 n 0 false.
Definition f64_div : f64 -> f64 -> f64 := SFdiv 53 1024.
Definition f64_mul : f64 -> f64 -> f64 := SFmul 53 1024.
Definition f64_zero : f64 := S754_zero false.

Definition u64_modulus : Z := 2 ^ 64.

(** [a - b] on [u64] as compiled in a release build (wrapping). *)
Definition u64_sub (a b : Z) : Z := (a - b) mod u64_modulus.

(** The fields of bollard's [ContainerStatsResponse] the code reads. *)
Record ContainerCpuUsage := { total_usage : option Z }.
Record ContainerCpuStats := {
  cpu_usage : option ContainerCpuUsage;
  system_cpu_usage : option Z;
  online_cpus : option Z;
}.
Record ContainerStatsResponse := {
  cpu_stats : option ContainerCpuStats;
  precpu_stats : option ContainerCpuStats;
}.

Definition stats_total_usage (c : option ContainerCpuStats) : Z :=
  default 0%Z (c ≫= fun c => cpu_usage c ≫= total_usage).
Definition stats_system_usage (c : option ContainerCpuStats) : Z :=
  default 0%Z (c ≫= system_cpu_usage).

(** [calculate_cpu_percent]. *)
Definition calculate_cpu_percent (stats : ContainerStatsResponse) : f64 :=
  let cpu_delta :=
    u64_sub (stats_total_usage (cpu_stats stats))
            (stats_total_usage (precpu_stats stats)) in
  let system_delta :=
    u64_sub (stats_system_usage (cpu_stats stats))
            (stats_system_usage (precpu_stats stats)) in
  if (0 <? system_delta)%Z && (0 <? cpu_delta)%Z then
    let cpu_count := f64_of_Z (default 0%Z (cpu_stats stats ≫= online_cpus)) in
    f64_mul (f64_mul (f64_div (f64_of_Z cpu_delta) (f64_of_Z system_delta))
                     cpu_count)
            (f64_of_Z 100)
  else f64_zero.

(* ------------------------------------------------------------------ *)
(** ** Shell-output parsing ([parse_disk_usage]) *)

(** [str::lines] from the ['\n']-segments: every segment followed by a
    newline loses one trailing ['\r']; a final empty segment is no line. *)
Fixpoint strip_cr (s : string) : string :=
  match s with
  | String a EmptyString => if Ascii.eqb a "013" then EmptyString else s
  | String a s' => String a (strip_cr s')
  | EmptyString => EmptyString
  end.

Fixpoint lines_of_segments (segs : list string) : list string :=
  match segs with
  | [] => []
  | [x] => if String.eqb x "" then [] else [x]
  | x :: rest => strip_cr x :: lines_of_segments rest
  end.

Definition lines (s : string) : list string :=
  lines_of_segments (split_char "010" s).

(** [char::is_whitespace] on ASCII: tab, line feed, vertical tab, form
    feed, carriage return and space. *)
Definition is_whitespace (a : ascii) : bool :=
  let n := nat_of_ascii a in (Nat.leb 9 n && Nat.leb n 13) || Nat.eqb n 32.

(** [str::split_whitespace]: [split(char::is_whitespace)] without the empty
    pieces. *)
Definition split_whitespace (s : string) : list string :=
  List.filter (fun w => negb (String.eqb w "")) (split_by is_whitespace s).

(** [str::trim_end_matches(c)] for a single character. *)
Fixpoint trim_end_matches (c : ascii) (s : string) : string :=
  match s with
  | EmptyString => EmptyString
  | String a s' =>
      let r := trim_end_matches c s' in
      if String.eqb r "" && Ascii.eqb a c then EmptyString else String a r
  end.

Record DiskInfo := {
  total : string;
  available : string;
  usage_percent : f64;
}.

(** [parse_disk_usage]; [parse_f64] is [str::parse::<f64>] with [.ok()]. *)
Definition parse_disk_usage (parse_f64 : string -> option f64) (df_output : string)
    : option DiskInfo :=
  match lines df_output !! 1 with
  | None => None
  | Some line =>
      let parts := split_whitespace line in
      if Nat.leb 5 (length parts) then
        let usage_str := trim_end_matches "%" (default "" (parts !! 4)) in
        match parse_f64 usage_str with
        | Some usage_percent =>
            Some {| total := default "" (parts !! 1);
                    available := default "" (parts !! 3);
                    usage_percent := usage_percent |}
        | None => None
        end
      else None
  end.

(** [str::parse::<f64>] restricted to unsigned decimal integers (one
    instance of [parse_f64]; exact for such strings up to 2^53). *)
Fixpoint decimal_digits (s : string) (acc : Z) : option Z :=
  match s with
  | EmptyString => Some acc
  | String a s' =>
      let n := nat_of_ascii a in
      if Nat.leb 48 n && Nat.leb n 57
      then decimal_digits s' (acc * 10 + Z.of_nat (n - 48))%Z
      else None
  end.

Definition parse_f64_decimal (s : string) : option f64 :=
  if String.eqb s "" then None else f64_of_Z <$> decimal_digits s 0%Z.

(* ------------------------------------------------------------------ *)
(** ** System reporter ([SystemSensorReporter::get_value]) *)

(** Decimal rendering of a non-negative integer ([Display] for integers). *)
Fixpoint digits_rev (fuel : nat) (n : Z) : string :=
  match fuel with
  | O => EmptyString
  | S fuel' =>
      let d := ascii_of_nat (48 + Z.to_nat (n mod 10)) in
      if (n <? 10)%Z then String d EmptyString
      else String.append (digits_rev fuel' (n / 10)) (String d EmptyString)
  end.

Definition display_Z (n : Z) : string :=
  if (n <? 0)%Z then "-" ++ digits_rev (S (Z.to_nat (Z.log2 (- n)))) (- n)
  else digits_rev (S (Z.to_nat (Z.log2 n))) n.

(** [m * 10 * 2^e] rounded to an integer, ties to even. *)
Definition round_tenths (m : Z) (e : Z) : Z :=
  if (0 <=? e)%Z then (m * 10 * 2 ^ e)%Z
  else
    let d := (2 ^ (- e))%Z in
    let q := ((m * 10) / d)%Z in
    let r := ((m * 10) mod d)%Z in
    match Z.compare (2 * r) d with
    | Lt => q
    | Gt => q + 1
    | Eq => if Z.even q then q else q + 1
    end%Z.

(** [format!("{:.1}", x)] for a float. *)
Definition format_fixed1 (x : spec_float) : string :=
  match x with
  | S754_nan => "NaN"
  | S754_infinity false => "inf"
  | S754_infinity true => "-inf"
  | S754_zero false => "0.0"
  | S754_zero true => "-0.0"
  | S754_finite sgn m e =>
      let q := round_tenths (Zpos m) e in
      (if sgn then "-" else "") ++ display_Z (q / 10) ++ "." ++ display_Z (q mod 10)
  end.

(** The host snapshot ([Arc<System>]) fields the reporter reads;
    [global_cpu_usage] is an [f32]. *)
Record SystemSnapshot := {
  total_memory : Z;
  used_memory : Z;
  global_cpu_usage : spec_float;
  uptime_secs : Z;
}.

Record SystemSensorReporter := {
  system : SystemSnapshot;
  ssr_name : SystemSensorReporterStat.t;
}.

(** [SystemSensorReporter::get_value]. *)
Definition system_get_value (self : SystemSensorReporter) : option string :=
  match ssr_name self with
  | SystemSensorReporterStat.MemoryUsage =>
      let total_memory := f64_of_Z (total_memory (system self)) in
      let used_memory := f64_of_Z (used_memory (system self)) in
      Some (format_fixed1 (f64_mul (f64_div used_memory total_memory)
                                   (f64_of_Z 100)))
  | SystemSensorReporterStat.MemoryUsed => Some (display_Z (used_memory (system self)))
  | SystemSensorReporterStat.MemoryTotal => Some (display_Z (total_memory (system self)))
  | SystemSensorReporterStat.CpuUsage => Some (format_fixed1 (global_cpu_usage (system self)))
  | SystemSensorReporterStat.Uptime => Some (display_Z (uptime_secs (system self)))
  end.

(* ------------------------------------------------------------------ *)
(** ** Configurations used in the scenarios below *)

(** An override entry as it appears in the TOML file ([id] comes from the
    key when the file is parsed). *)
Definition override_entry (n : option string) (d : bool) : Sensors :=
  SensorOverride {| sc_id := ""; sc_name := n; sc_unit := None;
                    sc_device_class := None; sc_icon := None; sc_disabled := d |}.

(** A container as the engine lists it. *)
Definition container_named (n : string) : ContainerSummary :=
  {| cs_id := Some n; cs_names := Some ["/" ++ n]; cs_status := Some "running" |}.

(** [[sensors."dockercontainer_*_memory"] disabled = true] together with
    [[sensors.dockercontainer_web_memory] disabled = false]. *)
Definition memory_scenario_config : Config :=
  {| sensors := deserialize_sensors
       {[ "dockercontainer_*_memory" := override_entry None true;
          "dockercontainer_web_memory" := override_entry None false ]} |}.

(** A [type = "command"] entry as it appears in the TOML file. *)
Definition command_entry (n cmd : string) : Sensors :=
  CommandS {| cmd_id := ""; cmd_name := n; cmd_unit := None;
              cmd_device_class := None; cmd_icon := None; cmd_command := cmd;
              cmd_args := None; cmd_post_process := None; cmd_disabled := false |}.

(** A CPU sample as the Docker API reports it. *)
Definition cpu_sample (total sys cpus : option Z) : option ContainerCpuStats :=
  Some {| cpu_usage := Some {| total_usage := total |};
          system_cpu_usage := sys; online_cpus := cpus |}.

(** A one-character string holding a line feed. *)
Definition newline : string := String "010" EmptyString.

(** The suffixes of the per-container sensor ids, and those ids. *)
Definition container_suffixes : list string := ["_cpu"; "_memory"; "_uptime"].

Definition container_id (n suf : string) : string := "dockercontainer_" ++ n ++ suf.

(** A memory-usage system reporter over a snapshot with the given totals. *)
Definition memory_usage_reporter (total used : Z) : SystemSensorReporter :=
  {| system := {| total_memory := total; used_memory := used;
                  global_cpu_usage := f64_zero; uptime_secs := 0%Z |};
     ssr_name := SystemSensorReporterStat.MemoryUsage |}.

(* ------------------------------------------------------------------ *)
(** ** Further functions of the crate *)

(** [str::strip_prefix]. *)
Fixpoint strip_prefix (pat s : string) : option string :=
  match pat with
  | EmptyString => Some s
  | String a p' =>
      match s with
      | String b s' => if Ascii.eqb a b then strip_prefix p' s' else None
      | EmptyString => None
      end
  end.

(** [str::trim_start_matches(pat)] for a non-empty string pattern: strip
    [pat] as long as the rest starts with it. *)
Fixpoint trim_start_matches_fuel (fuel : nat) (pat s : string) : string :=
  match fuel with
  | O => s
  | S fuel' =>
      match strip_prefix pat s with
      | Some r => trim_start_matches_fuel fuel' pat r
      | None => s
      end
  end.

Definition trim_start_matches_str (pat s : string) : string :=
  if String.eqb pat "" then s else trim_start_matches_fuel (S (String.length s)) pat s.

Fixpoint string_rev (s : string) : string :=
  match s with
  | EmptyString => EmptyString
  | String a s' => string_rev s' ++ String a EmptyString
  end.

(** [str::trim_end_matches(pat)] for a non-empty string pattern: the
    mirror image of [trim_start_matches_str]. *)
Definition trim_end_matches_str (pat s : string) : string :=
  string_rev (trim_start_matches_str (string_rev pat) (string_rev s)).

(** [str::trim_matches(c)] for a single character. *)
Definition trim_matches (c : ascii) (s : string) : string :=
  trim_end_matches c (trim_start_matches c s).

(** [parse_array_status]. *)
Definition parse_array_status (status_output : string) : option string :=
  trim_start_matches_str "mdState=" <$>
    List.find (fun line => starts_with line "mdState=") (lines status_output).

(** [parse_cpu_temp]; [parse_f64] is [str::parse::<f64>] with [.ok()]. *)
Definition parse_cpu_temp (parse_f64 : string -> option f64) (sensors_output : string)
    : option f64 :=
  List.find (fun line => contains "Package id 0" line) (lines sensors_output) ≫= fun line =>
  List.find (fun word => contains "°C" word) (split_whitespace line) ≫= fun temp =>
  parse_f64 (trim_end_matches_str "°C" (trim_start_matches "+" temp)).

(** [UnraidStats::get_unraid_version]; [file] is the content of
    [/etc/unraid-version], [None] when it cannot be read (the [Err]). *)
Definition get_unraid_version (file : option string) : option string :=
  match file with
  | None => None
  | Some content =>
      Some match List.find (fun line => starts_with line "version=") (lines content) with
           | Some line => trim_matches "034" (trim_start_matches_str "version=" line)
           | None => "Unknown"
           end
  end.

(** [UnraidStats::get_device_info]. *)
Definition get_device_info (device_name : string) (file : option string) : Value :=
  VObject [("identifiers", VArray [VString ("unraid_" ++ device_name)]);
           ("name", VString ("Unraid " ++ device_name));
           ("model", VString "Unraid Server");
           ("manufacturer", VString "Lime Technology");
           ("sw_version", VString (default "Unknown" (get_unraid_version file)))].

(** [cli::Args] (fields prefixed, as [device_name] is taken). *)
Record Args := {
  args_host : option string;
  args_port : Z;
  args_client_id : option string;
  args_username : option string;
  args_password : option string;
  args_config_file : option string;
  args_sensor_dump : option string;
  args_json_output : bool;
  args_discovery_prefix : string;
  args_device_name : string;
  args_skip_discovery : bool;
}.

Record MqttConfig := {
  mq_host : string;
  mq_port : Z;
  mq_client_id : string;
  mq_username : string;
  mq_password : string;
}.

(** [MqttConfig::from_args_and_file]; [process_id] is [std::process::id()]. *)
Definition from_args_and_file (args : Args) (process_id : Z) : string + MqttConfig :=
  let host := match args_host args with Some h => h | None => "" end in
  let client_id := match args_client_id args with Some c => c | None => "" end in
  let username := match args_username args with Some u => u | None => "" end in
  let password := match args_password args with Some p => p | None => "" end in
  if String.eqb host "" then
    inl "MQTT host is required. Set via --host, MQTT_HOST env var, or config file"
  else
    inr {| mq_host := host; mq_port := args_port args;
           mq_client_id := if String.eqb client_id ""
                           then "unraid-mqtt-stats-" ++ display_Z process_id
                           else client_id;
           mq_username := username; mq_password := password |}.

(** The [rumqttc::MqttOptions] settings [create_mqtt_client] makes. *)
Record MqttOptions := {
  mo_client_id : string;
  mo_host : string;
  mo_port : Z;
  mo_credentials : option (string * string);
  mo_keep_alive_secs : Z;
}.

(** [MqttConfig::create_mqtt_client]: the options and the request-channel
    capacity given to [AsyncClient::new]. *)
Definition create_mqtt_client (self : MqttConfig) : MqttOptions * nat :=
  let creds := if negb (String.eqb (mq_username self) "") && negb (String.eqb (mq_password self) "")
               then Some (mq_username self, mq_password self) else None in
  ({| mo_client_id := mq_client_id self; mo_host := mq_host self; mo_port := mq_port self;
      mo_credentials := creds; mo_keep_alive_secs := 5 |}, 10%nat).

(** [str::trim_start_matches] / [str::trim_end_matches] with a char
    predicate, and [str::trim] ([char::is_whitespace] on the ASCII model). *)
Fixpoint trim_start_by (p : ascii -> bool) (s : string) : string :=
  match s with
  | String a s' => if p a then trim_start_by p s' else s
  | EmptyString => EmptyString
  end.

Fixpoint trim_end_by (p : ascii -> bool) (s : string) : string :=
  match s with
  | EmptyString => EmptyString
  | String a s' =>
      let r := trim_end_by p s' in
      if String.eqb r "" && p a then EmptyString else String a r
  end.

Definition trim (s : string) : string :=
  trim_end_by is_whitespace (trim_start_by is_whitespace s).

(** [char::is_numeric] on the ASCII model: the decimal digits. *)
Definition is_numeric (a : ascii) : bool :=
  let n := nat_of_ascii a in Nat.leb 48 n && Nat.leb n 57.

(** [s.chars().filter(f).collect::<String>()]. *)
Fixpoint string_filter (f : ascii -> bool) (s : string) : string :=
  match s with
  | EmptyString => EmptyString
  | String a s' => if f a then String a (string_filter f s') else string_filter f s'
  end.

(** [str::to_uppercase] and [str::to_lowercase] on the ASCII model. *)
Fixpoint string_map (f : ascii -> ascii) (s : string) : string :=
  match s with
  | EmptyString => EmptyString
  | String a s' => String (f a) (string_map f s')
  end.

Definition ascii_upper (a : ascii) : ascii :=
  let n := nat_of_ascii a in
  if Nat.leb 97 n && Nat.leb n 122 then ascii_of_nat (n - 32) else a.

Definition ascii_lower (a : ascii) : ascii :=
  let n := nat_of_ascii a in
  if Nat.leb 65 n && Nat.leb n 90 then ascii_of_nat (n + 32) else a.

Definition to_uppercase : string -> string := string_map ascii_upper.
Definition to_lowercase : string -> string := string_map ascii_lower.

(** [str::parse::<i64>]: an optional sign, then at least one decimal digit;
    a value outside the [i64] range is an error. *)
Definition parse_i64_digits (neg : bool) (digits : string) : option Z :=
  if String.eqb digits "" then None
  else match decimal_digits digits 0%Z with
       | Some m =>
           let v := if neg then (- m)%Z else m in
           if (- 2 ^ 63 <=? v)%Z && (v <? 2 ^ 63)%Z then Some v else None
       | None => None
       end.

Definition parse_i64 (s : string) : option Z :=
  match s with
  | EmptyString => None
  | String a r =>
      if Ascii.eqb a "+" then parse_i64_digits false r
      else if Ascii.eqb a "-" then parse_i64_digits true r
      else parse_i64_digits false s
  end.

Section Transforms.

(** [str::parse::<f64>] with [.ok()], and [f64]'s [Display]. *)
Variable parse_f64 : string -> option f64.
Variable display_f64 : f64 -> string.

(** The transform closures: those [From<&CommandSensor>] builds from a
    [PostProcess], and those of the built-in command sensors. *)
Definition apply_transform (t : Transform) (s : string) : option string :=
  match t with
  | FromPostProcess (Some TrimWhitespace) => Some (trim s)
  | FromPostProcess (Some ParseFloat) => display_f64 <$> parse_f64 s
  | FromPostProcess (Some ParseInteger) => display_Z <$> parse_i64 s
  | FromPostProcess (Some ExtractNumber) =>
      display_f64 <$> parse_f64 (string_filter is_numeric s)
  | FromPostProcess (Some ToUpperCase) => Some (to_uppercase s)
  | FromPostProcess (Some ToLowerCase) => Some (to_lowercase s)
  | FromPostProcess None => Some s
  | DiskUsagePercent =>
      (fun disk_info => display_f64 (usage_percent disk_info)) <$> parse_disk_usage parse_f64 s
  | DiskTotal => total <$> parse_disk_usage parse_f64 s
  | DiskAvailable => available <$> parse_disk_usage parse_f64 s
  | CpuTemp => format_fixed1 <$> parse_cpu_temp parse_f64 s
  | ArrayStatus => parse_array_status s
  end.

(** [CommandSensorReporter::get_value]; [run command args] is the standard
    output of the spawned process ([from_utf8_lossy]), [None] when
    [Command::output] fails. *)
Definition command_get_value
    (run : string -> option (list string) -> option string)
    (self : CommandSensorReporter) : option string :=
  match run (csr_command self) (csr_args self) with
  | Some sensors_output =>
      let result := trim sensors_output in
      match csr_transform self with
      | Some transform_fn => apply_transform transform_fn result
      | None => Some result
      end
  | None => None
  end.

End Transforms.

(** Every character is an ASCII decimal digit. *)
Fixpoint all_digits (s : string) : bool :=
  match s with
  | EmptyString => true
  | String a s' => is_numeric a && all_digits s'
  end.

(** bollard's [ContainerMemoryStats] (the field read). *)
Record ContainerMemoryStats := { usage : option Z }.

(** A [ContainerStatsResponse] as kept in the stats stash: the CPU fields
    [calculate_cpu_percent] reads, and [memory_stats]. *)
Record ContainerStatsSample := {
  sample_cpu : ContainerStatsResponse;
  memory_stats : option ContainerMemoryStats;
}.

(** The state a container's reporters share: the number of [stats]
    requests made to the daemon so far, and the stash. *)
Definition StashState : Type := (nat * option ContainerStatsSample)%type.

Section DockerContainerReporter.

(** [f64]'s [Display]. *)
Variable display_f64 : f64 -> string.
(** The first item of the [n]-th [docker.stats(id, ..)] stream: [Some] for
    [Some(Ok(stats))], [None] for an error or an empty stream. *)
Variable first_stats : nat -> string -> option ContainerStatsSample.

(** The [match self.stat] of [DockerContainerSensorReporter::get_value]. *)
Definition container_stat_value (container : ContainerSummary)
    (stat : DockerContainerSensorReporterStat.t) (stats : ContainerStatsSample)
    : option string :=
  match stat with
  | DockerContainerSensorReporterStat.CpuUsage =>
      Some (display_f64 (calculate_cpu_percent (sample_cpu stats)))
  | DockerContainerSensorReporterStat.MemoryUsage =>
      Some (display_Z (default 0%Z (memory_stats stats ≫= usage)))
  | DockerContainerSensorReporterStat.Status => cs_status container
  end.

(** [DockerContainerSensorReporter::get_value]; [None] is the panic of
    [self.container.id.as_ref().unwrap()]. *)
Definition container_get_value (container : ContainerSummary)
    (stat : DockerContainerSensorReporterStat.t) (st : StashState)
    : option (option string * StashState) :=
  let '(n, stash) := st in
  let fetched :=
    match stash with
    | None =>
        match cs_id container with
        | Some i => Some (S n, first_stats n i)
        | None => None
        end
    | Some s => Some (n, Some s)
    end in
  fetched ≫= fun st' =>
  Some (match st'.2 with
        | Some stats => container_stat_value container stat stats
        | None => None
        end, st').

(** The reporters of a list of sensors run in order on one shared stash
    (sensors of other kinds are skipped). *)
Fixpoint run_container_reporters (l : list Sensor) (st : StashState)
    : option (list (option string) * StashState) :=
  match l with
  | [] => Some ([], st)
  | s :: l' =>
      match reporter s with
      | Some (DockerContainer c stat) =>
          container_get_value c stat st ≫= fun '(v, st1) =>
          (fun '(vs, st2) => (v :: vs, st2)) <$> run_container_reporters l' st1
      | _ => run_container_reporters l' st
      end
  end.

End DockerContainerReporter.

(** What the program emits: a line on standard output (the JSON value
    printed), an MQTT publish (QoS at least once), or the sensor dump
    written to a file. *)
Inductive Output :=
  | Println (v : Value)
  | Publish (topic payload : string) (retain : bool)
  | WriteFile (path : string) (dump : gmap string Sensor).

(** [AsyncClient::publish]: [Some e] when the request is refused. *)
Definition Client : Type := string -> string -> bool -> option string.

(** [UnraidStats] with the fields the sensor model leaves out. *)
Record UnraidStatsFull := {
  stats_self : UnraidStats;
  json_output : bool;
  discovery_prefix : string;
  skip_discovery : bool;
}.

(** The outputs so far, and the error ([Err]) that stopped the run. *)
Definition Emit : Type := (list Output * option string)%type.

(** [a?; k]: run [k] only when [a] succeeded. *)
Definition emit_then (a : Emit) (k : Emit) : Emit :=
  match a with
  | (o, Some e) => (o, Some e)
  | (o, None) => let '(o', r) := k in (List.app o o', r)
  end.

(** A [for] loop whose body ends in [?]. *)
Fixpoint emit_each {A} (f : A -> Emit) (l : list A) : Emit :=
  match l with
  | [] => ([], None)
  | x :: l' => emit_then (f x) (emit_each f l')
  end.

Definition topic_payload (topic payload : string) : Value :=
  VObject [("topic", VString topic); ("payload", VString payload)].

(** [UnraidStats::publish_raw]. *)
Definition publish_raw (self : UnraidStatsFull) (client : option Client)
    (topic payload : string) (retain : bool) : Emit :=
  if json_output self then ([Println (topic_payload topic payload)], None)
  else match client with
       | Some cl =>
           match cl topic payload retain with
           | None => ([Publish topic payload retain], None)
           | Some e => ([], Some e)
           end
       | None => ([], None)
       end.

(** [UnraidStats::publish_ha_state]. *)
Definition publish_ha_state (self : UnraidStatsFull) (client : option Client)
    (topic_suffix value : string) : Emit :=
  if json_output self then ([Println (topic_payload topic_suffix value)], None)
  else match client with
       | Some cl => publish_raw self (Some cl) topic_suffix value false
       | None => ([], None)
       end.

Section Publishing.

(** [serde_json::Value::to_string]. *)
Variable json_to_string : Value -> string.

(** [UnraidStats::publish_discovery]; [containers] is what [self.sensors()]
    lists, [version_file] the content of [/etc/unraid-version]. *)
Definition publish_discovery (self : UnraidStatsFull) (client : option Client)
    (containers : list ContainerSummary) (version_file : option string) : Emit :=
  if skip_discovery self then ([], None)
  else
    let dn := device_name (stats_self self) in
    let device_info := get_device_info dn version_file in
    let node_id := "unraid_" ++ dn in
    emit_each (fun sensor =>
        if disabled sensor then ([], None)
        else publish_raw self client
               (discovery_topic sensor (discovery_prefix self) node_id)
               (json_to_string (disovery_config sensor dn node_id device_info)) true)
      (unraid_sensors (stats_self self) containers).

(** The reporters' state and [SensorReporterType::get_value]. *)
Variable state : Type.
Variable get_value : SensorReporterType -> state -> option string * state.

Fixpoint publish_stats_loop (self : UnraidStatsFull) (client : option Client)
    (node_id : string) (l : list Sensor) (st : state) : Emit * state :=
  match l with
  | [] => (([], None), st)
  | sensor :: l' =>
      if disabled sensor then publish_stats_loop self client node_id l' st
      else
        let sensor_topic := sensor_topic sensor node_id in
        match reporter sensor with
        | Some source =>
            let '(v, st1) := get_value source st in
            match v with
            | Some value =>
                match publish_ha_state self client sensor_topic value with
                | (o, Some e) => ((o, Some e), st1)
                | (o, None) =>
                    let '((o', r), st2) := publish_stats_loop self client node_id l' st1 in
                    ((List.app o o', r), st2)
                end
            | None => publish_stats_loop self client node_id l' st1
            end
        | None => publish_stats_loop self client node_id l' st
        end
  end.

(** [UnraidStats::publish_stats]. *)
Definition publish_stats (self : UnraidStatsFull) (client : option Client)
    (containers : list ContainerSummary) (st : state) : Emit * state :=
  publish_stats_loop self client ("unraid_" ++ device_name (stats_self self))
    (unraid_sensors (stats_self self) containers) st.

(** [UnraidStats::dump_sensors_toml]: [collect::<HashMap<_, _>>] keeps the
    last sensor of each id. *)
Definition dump_sensors (l : list Sensor) : gmap string Sensor :=
  fold_left (fun m s => <[id s := s]> m) l ∅.

Definition dump_sensors_toml (self : UnraidStatsFull) (containers : list ContainerSummary)
    (filename : string) : Emit :=
  ([WriteFile filename (dump_sensors (unraid_sensors (stats_self self) containers))], None).

(** [UnraidStats::new]; [cfg] is [load_config] of [--config-file] (which
    panics when the file cannot be read or parsed). *)
Definition unraid_stats_new (args : Args) (cfg : option Config) : UnraidStatsFull :=
  {| stats_self := {| sensor_config := cfg; device_name := args_device_name args |};
     json_output := args_json_output args;
     discovery_prefix := args_discovery_prefix args;
     skip_discovery := args_skip_discovery args |}.

(** [main] after [Args::parse]: [connect] is the client [AsyncClient::new]
    builds from the options, [containers_d] and [containers_s] what the
    discovery and the stats passes list, [st] the reporters' initial state. *)
Definition main_run (args : Args) (process_id : Z) (cfg : option Config)
    (connect : MqttOptions -> Client)
    (containers_d containers_s : list ContainerSummary)
    (version_file : option string) (st : state) : Emit :=
  let stats := unraid_stats_new args cfg in
  match args_sensor_dump args with
  | Some dump_path => dump_sensors_toml stats containers_d dump_path
  | None =>
      if args_json_output args then
        emit_then (publish_discovery stats None containers_d version_file)
          (publish_stats stats None containers_s st).1
      else
        match from_args_and_file args process_id with
        | inl e => ([], Some e)
        | inr config =>
            let client := connect (create_mqtt_client config).1 in
            emit_then
              (if negb (args_skip_discovery args)
               then publish_discovery stats (Some client) containers_d version_file
               else ([], None))
              (publish_stats stats (Some client) containers_s st).1
        end
  end.

End Publishing.

(** [docker_stats::sensor_list]. *)
Definition docker_sensor_list : list Sensor :=
  [ docker_sensor "docker_containers_running" "Docker Containers Running"
      None None (Some "docker") DockerSensorReporterStat.RunningCount;
    docker_sensor "docker_containers_unhealthy" "Docker Containers Unhealthy"
      None None (Some "docker") DockerSensorReporterStat.UnhealthyCount;
    docker_sensor "docker_images_count" "Docker Images"
      None None (Some "docker") DockerSensorReporterStat.ImagesCount;
    docker_sensor "docker_images_size" "Docker Images Size"
      (Some "B") (Some DataSize) (Some "data_size")
      DockerSensorReporterStat.ImagesSize;
    docker_sensor "docker_volumes_count" "Docker Volumes"
      None None (Some "docker") DockerSensorReporterStat.VolumesCount ].

(** [docker_stats::container_sensors]. *)
Definition docker_container_sensors (device_name : string) (container : ContainerSummary)
    : list Sensor :=
  let cn := match cs_names container with
            | Some (n :: _) => trim_start_matches "/" n
            | _ => "unknown"
            end in
  [ container_sensor container ("dockercontainer_" ++ cn ++ "_cpu")
      (device_name ++ " Docker " ++ cn ++ " CPU") (Some "%") None
      "mdi:cpu-64-bit" DockerContainerSensorReporterStat.CpuUsage;
    container_sensor container ("dockercontainer_" ++ cn ++ "_memory")
      (device_name ++ " Docker " ++ cn ++ " Memory") (Some "B")
      (Some DataSize) "mdi:memory" DockerContainerSensorReporterStat.MemoryUsage;
    container_sensor container ("dockercontainer_" ++ cn ++ "_uptime")
      (device_name ++ " Docker " ++ cn ++ " Uptime") None None
      "mdi:docker" DockerContainerSensorReporterStat.Status ].

(** [docker_stats::container_sensor_list], given what [containers] lists. *)
Definition container_sensor_list (device_name : string) (containers : list ContainerSummary)
    : list Sensor :=
  flat_map (docker_container_sensors device_name) containers.


(** A sensor [publish_discovery] and [publish_stats] do not skip. *)
Definition enabled (s : Sensor) : bool := negb (disabled s).

(** The error [from_args_and_file] bails out with. *)
Definition mqtt_host_required : string :=
  "MQTT host is required. Set via --host, MQTT_HOST env var, or config file".

(** The Docker daemon's answers [DockerSensorReporter::get_value] reads:
    the sizes of the images ([list_images]), the volume list's length
    ([list_volumes]; the inner [None] is a response without [volumes]), and
    the number of containers matching a filter ([list_containers]); the
    outer [None] is a failed request. *)
Record DockerQueries := {
  list_images : option (list Z);
  list_volumes : option (option nat);
  list_containers : string -> string -> option nat;
}.

(** [i64] addition as compiled in a release build (wrapping). *)
Definition i64_add (a b : Z) : Z := ((a + b + 2 ^ 63) mod 2 ^ 64 - 2 ^ 63)%Z.

(** [DockerSensorReporter::get_value]. *)
Definition docker_get_value (docker : DockerQueries) (stat : DockerSensorReporterStat.t)
    : option string :=
  match stat with
  | DockerSensorReporterStat.ImagesCount =>
      (fun images => display_Z (Z.of_nat (length images))) <$> list_images docker
  | DockerSensorReporterStat.ImagesSize =>
      (fun images => display_Z (fold_left i64_add images 0%Z)) <$> list_images docker
  | DockerSensorReporterStat.VolumesCount =>
      (fun volumes => display_Z (Z.of_nat (default 0%nat volumes))) <$> list_volumes docker
  | DockerSensorReporterStat.RunningCount =>
      (fun n => display_Z (Z.of_nat n)) <$> list_containers docker "status" "running"
  | DockerSensorReporterStat.UnhealthyCount =>
      (fun n => display_Z (Z.of_nat n)) <$> list_containers docker "health" "unhealthy"
  end.

(* ------------------------------------------------------------------ *)
(** ** Inputs used by the witnesses below *)

Definition sensors_package_line : string := "Package id 0:  +45°C  (high)".

Definition uptime_config : Config :=
  {| sensors := deserialize_sensors {[ "uptime_cmd" := command_entry "Up" "uptime" ]} |}.

Definition sample_args : Args :=
  {| args_host := Some "broker"; args_port := 1883; args_client_id := None;
     args_username := Some "u"; args_password := Some "";
     args_config_file := None; args_sensor_dump := None; args_json_output := false;
     args_discovery_prefix := "homeassistant"; args_device_name := "tower";
     args_skip_discovery := false |}.

Definition sample_container : ContainerSummary :=
  {| cs_id := Some "abc"; cs_names := Some ["/web"]; cs_status := Some "Up 2 hours" |}.

Definition sample_stats : ContainerStatsSample :=
  {| sample_cpu := {| cpu_stats := cpu_sample (Some 200%Z) (Some 2000%Z) (Some 2%Z);
                      precpu_stats := cpu_sample (Some 100%Z) (Some 1000%Z) (Some 2%Z) |};
     memory_stats := None |}.

Definition sample_unraid : UnraidStats := {| sensor_config := None; device_name := "tower" |}.

Definition sample_full (json skip : bool) : UnraidStatsFull :=
  {| stats_self := sample_unraid; json_output := json; discovery_prefix := "homeassistant";
     skip_discovery := skip |}.

Definition sample_docker : DockerQueries :=
  {| list_images := Some [100; 250]%Z; list_volumes := Some None;
     list_containers := fun _ _ => Some 3%nat |}.

(* ================================================================== *)
(** * Properties *)

(* ------------------------------------------------------------------ *)
(** ** Lemmas on the string primitives *)

Lemma split_by_not_nil (pred : ascii -> bool) (s : string) :
  split_by pred s <> [].
Proof.
  induction s as [|a s IH]; simpl; [discriminate|].
  destruct (pred a); [discriminate|].
  destruct (split_by pred s); discriminate.
Qed.

Lemma split_char_no_char (c : ascii) (a : string) :
  has_char c a = false -> split_char c a = [a].
Proof.
  unfold split_char.
  induction a as [|x a IH]; simpl; [reflexivity|].
  intros H. apply orb_false_iff in H as [Hx Ha].
  rewrite Hx, (IH Ha). reflexivity.
Qed.

Lemma split_char_app (c : ascii) (a rest : string) :
  has_char c a = false ->
  split_char c (a ++ String c rest) = a :: split_char c rest.
Proof.
  unfold split_char.
  induction a as [|x a IH]; simpl; intros H.
  - rewrite Ascii.eqb_refl. reflexivity.
  - apply orb_false_iff in H as [Hx Ha].
    rewrite Hx, (IH Ha). reflexivity.
Qed.

Lemma split_char_last (c : ascii) (m b : string) :
  has_char c b = false ->
  exists l, l <> [] /\ split_char c (m ++ String c b) = (l ++ [b])%list.
Proof.
  intros Hb. unfold split_char.
  induction m as [|x m IH]; simpl.
  - rewrite Ascii.eqb_refl.
    exists [EmptyString]. split; [discriminate|].
    fold (split_char c b). rewrite (split_char_no_char c b Hb). reflexivity.
  - destruct IH as [l [Hl Heq]]. rewrite Heq.
    destruct (Ascii.eqb x c).
    + exists (EmptyString :: l). split; [discriminate|reflexivity].
    + destruct l as [|h t]; [congruence|].
      exists (String x h :: t). split; [discriminate|reflexivity].
Qed.

Lemma prefix_app (s t : string) : String.prefix s (s ++ t) = true.
Proof.
  induction s as [|a s IH]; simpl; [destruct t; reflexivity|].
  destruct (ascii_dec a a); [exact IH|congruence].
Qed.

Lemma contains_unfold (pat s : string) :
  contains pat s =
    String.prefix pat s ||
    match s with EmptyString => false | String _ s' => contains pat s' end.
Proof. destruct s; reflexivity. Qed.

Lemma contains_app (pat x y : string) : contains pat (x ++ pat ++ y) = true.
Proof.
  induction x as [|a x IH].
  - change (contains pat (pat ++ y) = true).
    rewrite contains_unfold, prefix_app. reflexivity.
  - change (contains pat (String a (x ++ pat ++ y)) = true).
    rewrite contains_unfold, IH. apply orb_true_r.
Qed.

(* ------------------------------------------------------------------ *)
(** ** Lemmas on [merge] and the override engine *)

Lemma star_id_wildcard (i : string) : contains "_*_" (star_id i) = true.
Proof. unfold star_id. apply contains_app. Qed.

Lemma merge_id (s : Sensor) (p : SensorConfig) : id (merge s p) = id s.
Proof. unfold merge. destruct (_ && _); reflexivity. Qed.

Lemma merge_applies (s : Sensor) (p : SensorConfig) :
  sc_id p = id s \/ contains "_*_" (sc_id p) = true ->
  merge s p =
    {| id := id s;
       name := default (name s) (sc_name p);
       unit := if is_some (sc_unit p) then sc_unit p else unit s;
       device_class := if is_some (sc_device_class p)
                       then sc_device_class p else device_class s;
       icon := if is_some (sc_icon p) then sc_icon p else icon s;
       disabled := if sc_disabled p then sc_disabled p else disabled s;
       reporter := reporter s |}.
Proof.
  intros H. unfold merge.
  assert (Hg : (negb (String.eqb (id s) (sc_id p))
                && negb (contains "_*_" (sc_id p))) = false).
  { destruct H as [H|H].
    - rewrite H, String.eqb_refl. reflexivity.
    - rewrite H. apply andb_false_r. }
  rewrite Hg. destruct (sc_name p); reflexivity.
Qed.

Lemma merge_disabled_mono (s : Sensor) (p : SensorConfig) :
  disabled s = true -> disabled (merge s p) = true.
Proof.
  intros H. unfold merge.
  destruct (_ && _); simpl; [exact H|].
  destruct (sc_disabled p); auto.
Qed.

Lemma deserialize_sensors_wf (m : gmap string Sensors) :
  config_wf {| sensors := deserialize_sensors m |}.
Proof.
  intros k v. simpl. unfold deserialize_sensors.
  rewrite map_lookup_imap.
  destruct (m !! k) as [v0|]; simpl; [|discriminate].
  intros [= <-]. destruct v0; reflexivity.
Qed.

Lemma override_one_id (cfg : Config) (s : Sensor) : id (override_one cfg s) = id s.
Proof.
  unfold override_one.
  destruct (sensors cfg !! star_id (id s)) as [[u|]|];
    try destruct (sensors cfg !! id (merge s u)) as [[u'|]|];
    try destruct (sensors cfg !! id s) as [[u'|]|];
    rewrite ?merge_id; reflexivity.
Qed.

Lemma lookup_unraid_sensors (self : UnraidStats) (cfg : Config)
    (containers : list ContainerSummary) (i : nat) (s : Sensor) :
  sensor_config self = Some cfg ->
  catalog self containers !! i = Some s ->
  unraid_sensors self containers !! i = Some (override_one cfg s).
Proof.
  intros Hc Hi. unfold unraid_sensors, apply_config. rewrite Hc.
  rewrite lookup_app_l.
  - rewrite list_lookup_fmap, Hi. reflexivity.
  - rewrite length_map. apply lookup_lt_Some in Hi. exact Hi.
Qed.

(* ------------------------------------------------------------------ *)
(** ** Claims on [Sensor::merge] *)

(** C1: with [p.id == s.id], [s.merge(p)] overwrites exactly the fields
    whose patch field is present, keeps the others (and [id], [reporter]),
    and sets [disabled] only when [p.disabled] is true, so it never
    re-enables a disabled sensor. *)
Theorem merge_overwrites_present_fields (s : Sensor) (p : SensorConfig) :
  sc_id p = id s ->
  let s' := merge s p in
  id s' = id s /\ reporter s' = reporter s /\
  (sc_name p = None -> name s' = name s) /\
  (forall v, sc_name p = Some v -> name s' = v) /\
  (sc_unit p = None -> unit s' = unit s) /\
  (forall v, sc_unit p = Some v -> unit s' = Some v) /\
  (sc_device_class p = None -> device_class s' = device_class s) /\
  (forall v, sc_device_class p = Some v -> device_class s' = Some v) /\
  (sc_icon p = None -> icon s' = icon s) /\
  (forall v, sc_icon p = Some v -> icon s' = Some v) /\
  (sc_disabled p = true -> disabled s' = true) /\
  (sc_disabled p = false -> disabled s' = disabled s) /\
  (disabled s = true -> disabled s' = true).
Proof.
  intros Hid s'. subst s'.
  rewrite (merge_applies s p (or_introl Hid)); simpl.
  repeat split;
    try (intros H; rewrite H; reflexivity);
    try (intros v H; rewrite H; reflexivity).
  intros H. destruct (sc_disabled p); [reflexivity|exact H].
Qed.

Lemma merge_overwrites_present_fields_witness :
  let s := sensor_default "cpu_usage" "CPU Usage" in
  let p := {| sc_id := "cpu_usage"; sc_name := Some "CPU"; sc_unit := None;
              sc_device_class := None; sc_icon := Some "cpu";
              sc_disabled := false |} in
  sc_id p = id s /\ name (merge s p) = "CPU".
Proof.
  intros s p. split; [reflexivity|].
  destruct (merge_overwrites_present_fields s p eq_refl)
    as (_ & _ & _ & Hn & _).
  apply Hn. reflexivity.
Defined.

(** C9: a patch whose id differs from the sensor's and is not a wildcard
    key (no ["_*_"] in it) leaves the sensor unchanged. *)
Theorem merge_foreign_patch_noop (s : Sensor) (p : SensorConfig) :
  sc_id p <> id s -> contains "_*_" (sc_id p) = false -> merge s p = s.
Proof.
  intros Hne Hw. unfold merge. rewrite Hw.
  destruct (String.eqb_spec (id s) (sc_id p)) as [E|E].
  - exfalso. apply Hne. symmetry. exact E.
  - reflexivity.
Qed.

Lemma merge_foreign_patch_noop_witness :
  let s := sensor_default "cpu_usage" "CPU Usage" in
  let p := {| sc_id := "memory_usage"; sc_name := Some "Mem"; sc_unit := None;
              sc_device_class := None; sc_icon := None; sc_disabled := true |} in
  sc_id p <> id s /\ contains "_*_" (sc_id p) = false /\ merge s p = s.
Proof.
  intros s p. split; [discriminate|]. split; [reflexivity|].
  apply merge_foreign_patch_noop; [discriminate|reflexivity].
Defined.

(* ------------------------------------------------------------------ *)
(** ** Claims on the override engine *)

(** C2 (counterexample): an id without an underscore does not give
    ["{id}_*_{id}"]; [last()] of the exhausted iterator is [None], so the
    last part is empty. *)
Lemma star_id_no_underscore_counterexample :
  star_id "uptime" <> "uptime_*_uptime".
Proof. vm_compute. discriminate. Qed.

(** C2 (as corrected): [star_id] keeps the first '_'-segment, then ["_*_"],
    then the last segment of the rest: ["dockercontainer_myapp_cpu"] gives
    ["dockercontainer_*_cpu"], ["cpu_usage"] gives ["cpu_*_usage"], and
    an id with no underscore gives ["{id}_*_"]. *)
Theorem star_id_segments :
  star_id "dockercontainer_myapp_cpu" = "dockercontainer_*_cpu" /\
  star_id "cpu_usage" = "cpu_*_usage" /\
  (forall a, has_char "_" a = false -> star_id a = a ++ "_*_") /\
  (forall a b, has_char "_" a = false -> has_char "_" b = false ->
     star_id (a ++ "_" ++ b) = a ++ "_*_" ++ b) /\
  (forall a m b, has_char "_" a = false -> has_char "_" b = false ->
     star_id (a ++ "_" ++ m ++ "_" ++ b) = a ++ "_*_" ++ b).
Proof.
  split; [reflexivity|]. split; [reflexivity|].
  split; [|split].
  - intros a Ha. unfold star_id. rewrite (split_char_no_char "_" a Ha).
    reflexivity.
  - intros a b Ha Hb. unfold star_id.
    change ("_" ++ b) with (String "_" b).
    rewrite (split_char_app "_" a b Ha), (split_char_no_char "_" b Hb).
    reflexivity.
  - intros a m b Ha Hb. unfold star_id.
    change ("_" ++ m ++ "_" ++ b) with (String "_" (m ++ String "_" b)).
    rewrite (split_char_app "_" a _ Ha).
    destruct (split_char_last "_" m b Hb) as [l [_ Hl]]. rewrite Hl.
    simpl. rewrite last_app. reflexivity.
Qed.

Lemma star_id_segments_witness :
  star_id "uptime" = "uptime_*_" /\
  star_id "disk_usage" = "disk_*_usage" /\
  star_id "dockercontainer_my_app_memory" = "dockercontainer_*_memory".
Proof.
  destruct star_id_segments as (_ & _ & H1 & H2 & H3).
  split; [apply (H1 "uptime"); reflexivity|].
  split; [apply (H2 "disk" "usage"); reflexivity|].
  apply (H3 "dockercontainer" "my_app" "memory"); reflexivity.
Defined.

(** C3: for every built-in sensor the wildcard override is merged first and
    the exact-id override second, so every field the exact override sets
    ends with the exact override's value. *)
Theorem override_exact_wins (self : UnraidStats) (cfg : Config)
    (containers : list ContainerSummary) (i : nat) (s : Sensor)
    (w e : SensorConfig) :
  sensor_config self = Some cfg -> config_wf cfg ->
  catalog self containers !! i = Some s ->
  sensors cfg !! star_id (id s) = Some (SensorOverride w) ->
  sensors cfg !! id s = Some (SensorOverride e) ->
  exists s', unraid_sensors self containers !! i = Some s' /\
    s' = merge (merge s w) e /\
    (forall v, sc_name e = Some v -> name s' = v) /\
    (forall v, sc_unit e = Some v -> unit s' = Some v) /\
    (forall v, sc_device_class e = Some v -> device_class s' = Some v) /\
    (forall v, sc_icon e = Some v -> icon s' = Some v) /\
    (sc_disabled e = true -> disabled s' = true).
Proof.
  intros Hc Hwf Hi Hw He.
  exists (override_one cfg s).
  split; [exact (lookup_unraid_sensors self cfg containers i s Hc Hi)|].
  assert (Heq : override_one cfg s = merge (merge s w) e).
  { unfold override_one. rewrite Hw, merge_id, He. reflexivity. }
  rewrite Heq. split; [reflexivity|].
  assert (Hide : sc_id e = id (merge s w)).
  { rewrite merge_id. exact (Hwf _ _ He). }
  rewrite (merge_applies (merge s w) e (or_introl Hide)); simpl.
  repeat split; try (intros v Hv; rewrite Hv; reflexivity).
  intros Hd. rewrite Hd. reflexivity.
Qed.

Lemma override_exact_wins_witness :
  let cfg := {| sensors := deserialize_sensors
        {[ "dockercontainer_*_cpu" := override_entry (Some "All CPU") false;
           "dockercontainer_web_cpu" := override_entry (Some "Web CPU") false ]} |} in
  let self := {| sensor_config := Some cfg; device_name := "tower" |} in
  let s := container_sensor (container_named "web") "dockercontainer_web_cpu"
             "tower Docker web CPU" (Some "%") None "mdi:cpu-64-bit"
             DockerContainerSensorReporterStat.CpuUsage in
  exists s', unraid_sensors self [container_named "web"] !! 15 = Some s' /\
             name s' = "Web CPU".
Proof.
  intros cfg self s.
  destruct (override_exact_wins self cfg [container_named "web"] 15 s
     {| sc_id := "dockercontainer_*_cpu"; sc_name := Some "All CPU";
        sc_unit := None; sc_device_class := None; sc_icon := None;
        sc_disabled := false |}
     {| sc_id := "dockercontainer_web_cpu"; sc_name := Some "Web CPU";
        sc_unit := None; sc_device_class := None; sc_icon := None;
        sc_disabled := false |}
     eq_refl (deserialize_sensors_wf _))
    as (s' & Hl & _ & Hn & _); [vm_compute; reflexivity|vm_compute; reflexivity
                                |vm_compute; reflexivity|].
  exists s'. split; [exact Hl|]. apply Hn. reflexivity.
Defined.

(** C4 (counterexample): with containers [web] and [db], the wildcard
    override disabling every [dockercontainer_*_memory] sensor and the
    exact override [dockercontainer_web_memory] with [disabled = false],
    the web memory sensor is still disabled: no memory sensor is enabled. *)
Lemma memory_scenario_counterexample :
  let self := {| sensor_config := Some memory_scenario_config;
                 device_name := "tower" |} in
  let final := unraid_sensors self [container_named "web"; container_named "db"] in
  option_map disabled
    (List.find (fun s => String.eqb (id s) "dockercontainer_web_memory") final)
  = Some true /\
  List.filter (fun s => contains "_memory" (id s) && negb (disabled s)) final = [].
Proof. vm_compute. split; reflexivity. Qed.

(** C4 (as corrected): in that scenario every per-container memory sensor
    of the final list is disabled, the web one included: an exact override
    with [disabled = false] does not re-enable what the wildcard disabled. *)
Theorem memory_scenario_all_disabled (self : UnraidStats)
    (containers : list ContainerSummary) (s : Sensor) :
  sensor_config self = Some memory_scenario_config ->
  In s (unraid_sensors self containers) ->
  (exists n, id s = "dockercontainer_" ++ n ++ "_memory") ->
  disabled s = true.
Proof.
  intros Hc Hin [n Hn].
  unfold unraid_sensors, apply_config in Hin. rewrite Hc in Hin.
  assert (Hcmd : command_sensors memory_scenario_config = []) by reflexivity.
  rewrite Hcmd, app_nil_r in Hin.
  apply in_map_iff in Hin as [s0 [<- _]].
  rewrite override_one_id in Hn.
  assert (Hstar : star_id (id s0) = "dockercontainer_*_memory").
  { rewrite Hn. destruct star_id_segments as (_ & _ & _ & _ & H).
    exact (H "dockercontainer" n "memory" eq_refl eq_refl). }
  set (w := {| sc_id := "dockercontainer_*_memory"; sc_name := None;
               sc_unit := None; sc_device_class := None; sc_icon := None;
               sc_disabled := true |}).
  assert (Hw : sensors memory_scenario_config !! "dockercontainer_*_memory"
               = Some (SensorOverride w)) by (vm_compute; reflexivity).
  assert (H1 : disabled (merge s0 w) = true).
  { rewrite (merge_applies s0 w (or_intror eq_refl)). reflexivity. }
  unfold override_one. rewrite Hstar, Hw.
  destruct (sensors memory_scenario_config !! id (merge s0 w)) as [[u|]|];
    [apply merge_disabled_mono|..]; exact H1.
Qed.

Lemma memory_scenario_all_disabled_witness :
  let self := {| sensor_config := Some memory_scenario_config;
                 device_name := "tower" |} in
  let final := unraid_sensors self [container_named "web"] in
  let s := nth 16 final (sensor_default "" "") in
  In s final /\ id s = "dockercontainer_web_memory" /\ disabled s = true.
Proof.
  intros self final s.
  assert (Hin : In s final) by (apply nth_In; vm_compute; lia).
  assert (Hid : id s = "dockercontainer_web_memory") by (vm_compute; reflexivity).
  split; [exact Hin|]. split; [exact Hid|].
  apply (memory_scenario_all_disabled self [container_named "web"] s eq_refl Hin).
  exists "web". exact Hid.
Defined.

(* ------------------------------------------------------------------ *)
(** ** Claim on the discovery document *)

(** C10: [disovery_config] prefixes ["mdi:"] onto any icon, and the
    per-container sensors already carry ["mdi:..."] icons, so the rendered
    icon of every per-container built-in sensor starts with ["mdi:mdi:"]. *)
Theorem container_icon_double_prefix (self : UnraidStats) (c : ContainerSummary)
    (s : Sensor) (dev_name node_id : string) (device_info : Value) :
  In s (container_sensors self c) ->
  exists rest,
    value_get "icon" (disovery_config s dev_name node_id device_info)
    = Some (VString ("mdi:mdi:" ++ rest)).
Proof.
  intros Hin. simpl in Hin.
  destruct Hin as [<- | [<- | [<- | []]]]; simpl.
  - exists "cpu-64-bit". reflexivity.
  - exists "memory". reflexivity.
  - exists "docker". reflexivity.
Qed.

Lemma container_icon_double_prefix_witness :
  let self := {| sensor_config := None; device_name := "tower" |} in
  let s := hd (sensor_default "" "") (container_sensors self (container_named "web")) in
  In s (container_sensors self (container_named "web")) /\
  value_get "icon" (disovery_config s "tower" "unraid_tower" VNull)
  = Some (VString "mdi:mdi:cpu-64-bit").
Proof.
  intros self s.
  assert (Hin : In s (container_sensors self (container_named "web")))
    by (simpl; left; reflexivity).
  split; [exact Hin|].
  destruct (container_icon_double_prefix self (container_named "web") s
              "tower" "unraid_tower" VNull Hin) as [rest Hr].
  rewrite Hr. vm_compute in Hr. injection Hr as <-. reflexivity.
Defined.

(* ------------------------------------------------------------------ *)
(** ** Claim on [calculate_cpu_percent] *)

(** The parts of C5 that hold: a zero [u64] delta gives exactly [0.0], and
    deltas 50 / 100 on 4 CPUs give exactly [200.0]. *)
Lemma cpu_percent_zero_and_example (stats : ContainerStatsResponse) :
  (u64_sub (stats_total_usage (cpu_stats stats))
           (stats_total_usage (precpu_stats stats)) = 0%Z \/
   u64_sub (stats_system_usage (cpu_stats stats))
           (stats_system_usage (precpu_stats stats)) = 0%Z ->
   calculate_cpu_percent stats = f64_zero) /\
  calculate_cpu_percent
    {| cpu_stats := cpu_sample (Some 150%Z) (Some 300%Z) (Some 4%Z);
       precpu_stats := cpu_sample (Some 100%Z) (Some 200%Z) (Some 4%Z) |}
  = f64_of_Z 200.
Proof.
  split; [|vm_compute; reflexivity].
  intros [H|H]; unfold calculate_cpu_percent; rewrite H;
    [rewrite andb_false_r|]; reflexivity.
Qed.

(** C5 (code defect): with the previous total usage above the current one
    (a negative CPU delta), the [u64] subtraction wraps instead of hitting
    the [cpu_delta > 0] guard, and the result is about 7.4e19, not 0.0. *)
Theorem cpu_percent_negative_delta_not_zero :
  let stats := {| cpu_stats := cpu_sample (Some 50%Z) (Some 200%Z) (Some 4%Z);
                  precpu_stats := cpu_sample (Some 100%Z) (Some 100%Z) (Some 4%Z) |} in
  (stats_total_usage (cpu_stats stats) - stats_total_usage (precpu_stats stats) < 0)%Z /\
  calculate_cpu_percent stats <> f64_zero /\
  calculate_cpu_percent stats = S754_finite false 4503599627370496 14.
Proof. vm_compute. split; [reflexivity|]. split; [discriminate|reflexivity]. Qed.

(* ------------------------------------------------------------------ *)
(** ** Claim on [parse_disk_usage] *)

Lemma lines_cons (h r : string) :
  has_char "010" h = false ->
  lines (h ++ String "010" r) = strip_cr h :: lines r.
Proof.
  intros Hh. unfold lines. rewrite (split_char_app "010" h r Hh).
  pose proof (split_by_not_nil (fun a => Ascii.eqb a "010") r) as Hne.
  unfold split_char. destruct (split_by _ r); [congruence|reflexivity].
Qed.

(** C6 (counterexample): [parse_disk_usage] skips the first line of the
    [df] output (its header), so the data line on its own parses to
    nothing. *)
Lemma parse_disk_usage_lone_line_counterexample :
  parse_disk_usage parse_f64_decimal "/dev/sda1 100M 40M 60M 40% /mnt/user" = None.
Proof. vm_compute. reflexivity. Qed.

(** C6 (as corrected): after a header line, the data line
    ["/dev/sda1 100M 40M 60M 40% /mnt/user"] parses to total ["100M"],
    available ["60M"] and usage [40.0] (given that ["40"] parses to 40.0);
    a second line with fewer than 5 fields, or no second line at all, gives
    [None]. *)
Theorem parse_disk_usage_second_line (parse_f64 : string -> option f64) :
  (forall header, has_char "010" header = false ->
     parse_f64 "40" = Some (f64_of_Z 40) ->
     parse_disk_usage parse_f64
       (header ++ newline ++ "/dev/sda1 100M 40M 60M 40% /mnt/user")
     = Some {| total := "100M"; available := "60M";
               usage_percent := f64_of_Z 40 |}) /\
  (forall df_output line, lines df_output !! 1 = Some line ->
     length (split_whitespace line) < 5 ->
     parse_disk_usage parse_f64 df_output = None) /\
  (forall df_output, lines df_output !! 1 = None ->
     parse_disk_usage parse_f64 df_output = None).
Proof.
  split; [|split].
  - intros header Hh H40. unfold parse_disk_usage.
    change (newline ++ ?r) with (String "010" r).
    rewrite (lines_cons header _ Hh).
    vm_compute.
    rewrite H40. reflexivity.
  - intros df_output line Hl Hlen. unfold parse_disk_usage. rewrite Hl.
    destruct (Nat.leb_spec 5 (length (split_whitespace line))); [lia|].
    reflexivity.
  - intros df_output Hl. unfold parse_disk_usage. rewrite Hl. reflexivity.
Qed.

Lemma parse_disk_usage_second_line_witness :
  parse_disk_usage parse_f64_decimal
    ("Filesystem 1M-blocks Used Available Use% Mounted on" ++ newline ++
     "/dev/sda1 100M 40M 60M 40% /mnt/user")
  = Some {| total := "100M"; available := "60M"; usage_percent := f64_of_Z 40 |} /\
  parse_disk_usage parse_f64_decimal
    ("Filesystem 1M-blocks Used" ++ newline ++ "/dev/sda1 100M 40M") = None.
Proof.
  destruct (parse_disk_usage_second_line parse_f64_decimal) as (H1 & H2 & _).
  split.
  - apply H1; vm_compute; reflexivity.
  - apply (H2 _ "/dev/sda1 100M 40M"); vm_compute; [reflexivity|lia].
Defined.

(* ------------------------------------------------------------------ *)
(** ** Claim on id uniqueness in the final list *)

Lemma list_ascii_of_string_app (a b : string) :
  list_ascii_of_string (a ++ b) = (list_ascii_of_string a ++ list_ascii_of_string b)%list.
Proof. induction a as [|x a IH]; simpl; [reflexivity|]. rewrite IH. reflexivity. Qed.

Lemma list_ascii_of_string_inj (a b : string) :
  list_ascii_of_string a = list_ascii_of_string b -> a = b.
Proof.
  intros H. rewrite <- (string_of_list_ascii_of_string a),
    <- (string_of_list_ascii_of_string b), H. reflexivity.
Qed.

(** The suffixes of the per-container ids. *)
Lemma container_id_inj (n1 n2 s1 s2 : string) :
  In s1 container_suffixes -> In s2 container_suffixes ->
  container_id n1 s1 = container_id n2 s2 -> n1 = n2 /\ s1 = s2.
Proof.
  intros H1 H2 H. unfold container_id in H.
  injection H as H. (* strip the common prefix *)
  repeat (injection H as H).
  apply (f_equal (fun x => rev (list_ascii_of_string x))) in H.
  rewrite !list_ascii_of_string_app, !rev_app_distr in H.
  simpl in H1, H2.
  destruct H1 as [<-|[<-|[<-|[]]]]; destruct H2 as [<-|[<-|[<-|[]]]];
    simpl in H; try discriminate;
    repeat (injection H as H); rewrite !app_nil_r in H;
    apply (f_equal (@rev ascii)) in H; rewrite !rev_involutive in H; apply list_ascii_of_string_inj in H;
    split; auto.
Qed.

Lemma container_sensors_ids (self : UnraidStats) (c : ContainerSummary) :
  map id (container_sensors self c) =
  map (container_id (container_name c)) container_suffixes.
Proof. reflexivity. Qed.

Lemma in_container_ids (self : UnraidStats) (cs : list ContainerSummary) (x : string) :
  In x (map id (flat_map (container_sensors self) cs)) ->
  exists c suf, In c cs /\ In suf container_suffixes /\
                x = container_id (container_name c) suf.
Proof.
  intros Hx. apply in_map_iff in Hx as [s [<- Hs]].
  apply in_flat_map in Hs as [c [Hc Hs]].
  apply (in_map id) in Hs. rewrite container_sensors_ids in Hs.
  apply in_map_iff in Hs as [suf [Heq Hsuf]].
  exists c, suf. auto.
Qed.

Lemma container_ids_nodup (self : UnraidStats) (cs : list ContainerSummary) :
  NoDup (map container_name cs) ->
  NoDup (map id (flat_map (container_sensors self) cs)).
Proof.
  induction cs as [|c cs IH]; intros Hnd; [constructor|].
  change (flat_map (container_sensors self) (c :: cs)) with
    (container_sensors self c ++ flat_map (container_sensors self) cs)%list.
  apply list.NoDup_cons in Hnd as [Hnotin Hnd'].
  rewrite map_app. apply list.NoDup_app. split; [|split].
  - rewrite container_sensors_ids. cbn [map container_suffixes].
    assert (Hne : forall s1 s2, In s1 container_suffixes -> In s2 container_suffixes ->
              s1 <> s2 -> container_id (container_name c) s1 <>
                          container_id (container_name c) s2).
    { intros s1 s2 H1 H2 Hne Heq. apply (container_id_inj _ _ _ _ H1 H2) in Heq.
      tauto. }
    apply list.NoDup_cons; split.
    { rewrite list_elem_of_In. intros [H|[H|[]]].
      - exact (Hne "_memory" "_cpu" ltac:(simpl; auto) ltac:(simpl; auto)
                 ltac:(discriminate) H).
      - exact (Hne "_uptime" "_cpu" ltac:(simpl; auto) ltac:(simpl; auto)
                 ltac:(discriminate) H). }
    apply list.NoDup_cons; split.
    { rewrite list_elem_of_In. intros [H|[]].
      exact (Hne "_uptime" "_memory" ltac:(simpl; auto) ltac:(simpl; auto)
               ltac:(discriminate) H). }
    apply NoDup_singleton.
  - intros x Hx Hx'. apply list_elem_of_In in Hx, Hx'.
    rewrite container_sensors_ids in Hx. apply in_map_iff in Hx as [s1 [<- Hs1]].
    apply in_container_ids in Hx' as (c' & s2 & Hc' & Hs2 & Heq).
    apply container_id_inj in Heq as [Hn _]; auto.
    apply Hnotin. rewrite Hn. apply list_elem_of_In, in_map. exact Hc'.
  - apply IH. exact Hnd'.
Qed.

Lemma builtin_ids_nodup : NoDup (map id builtin_sensors).
Proof. apply (bool_decide_unpack _). vm_compute. reflexivity. Qed.

Lemma catalog_ids (self : UnraidStats) (cs : list ContainerSummary) :
  NoDup (map container_name cs) ->
  NoDup (map id (catalog self cs)) /\
  forall x, In x (map id (catalog self cs)) -> x <> "".
Proof.
  intros Hnd. unfold catalog. rewrite map_app.
  assert (Hb : forall x, In x (map id builtin_sensors) ->
                 String.prefix "dockercontainer_" x = false /\ x <> "").
  { intros x Hx. vm_compute in Hx.
    repeat destruct Hx as [<-|Hx]; try contradiction;
      split; (reflexivity || discriminate). }
  assert (Hc : forall x, In x (map id (flat_map (container_sensors self) cs)) ->
                 String.prefix "dockercontainer_" x = true /\ x <> "").
  { intros x Hx. apply in_container_ids in Hx as (c & suf & _ & _ & ->).
    unfold container_id. split; [apply prefix_app|discriminate]. }
  split.
  - apply list.NoDup_app. split; [exact builtin_ids_nodup|split].
    + intros x Hx Hx'. apply list_elem_of_In in Hx, Hx'.
      destruct (Hb x Hx) as [Hf _]. destruct (Hc x Hx') as [Ht _]. congruence.
    + exact (container_ids_nodup self cs Hnd).
  - intros x Hx. apply in_app_or in Hx as [Hx|Hx];
      [exact (proj2 (Hb x Hx))|exact (proj2 (Hc x Hx))].
Qed.

Lemma command_sensors_of_list (l : list (string * Sensors)) :
  NoDup l.*1 ->
  let f := fun kv : string * Sensors =>
             match kv.2 with
             | CommandS c => Some (sensor_of_command c)
             | SensorOverride _ => None
             end in
  (forall k v, In (k, v) l -> sensors_id v = k) ->
  NoDup (map id (omap f l)) /\
  (forall x, In x (map id (omap f l)) -> exists c, In (x, CommandS c) l).
Proof.
  intros Hnd f. induction l as [|[k v] l IH]; intros Hid; simpl.
  - split; [constructor|intros x []].
  - apply list.NoDup_cons in Hnd as [Hk Hnd].
    destruct (IH Hnd) as [IHnd IHin].
    { intros k' v' H. apply Hid. right. exact H. }
    destruct v as [o|c]; simpl.
    + split; [exact IHnd|].
      intros x Hx. destruct (IHin x Hx) as [c Hc]. exists c. right. exact Hc.
    + assert (Hck : cmd_id c = k) by exact (Hid k (CommandS c) (or_introl eq_refl)).
      split.
      * apply list.NoDup_cons. split; [|exact IHnd].
        rewrite list_elem_of_In. intros Hin. simpl in Hin. rewrite Hck in Hin.
        destruct (IHin k Hin) as [c' Hc']. apply Hk.
        apply (list_elem_of_fmap_2 fst l (k, CommandS c')).
        apply list_elem_of_In. exact Hc'.
      * intros x [Hx|Hx].
        -- exists c. left. simpl in Hx. rewrite <- Hx, Hck. reflexivity.
        -- destruct (IHin x Hx) as [c' Hc']. exists c'. right. exact Hc'.
Qed.

(** C8 (counterexample): a command entry keyed by a built-in id is appended
    next to the built-in sensor, so the final list holds ["cpu_usage"]
    twice; containers without a name would likewise all be ["unknown"]. *)
Lemma final_ids_duplicate_counterexample :
  let cfg := {| sensors := deserialize_sensors
                  {[ "cpu_usage" := command_entry "My CPU" "mycpu" ]} |} in
  let self := {| sensor_config := Some cfg; device_name := "tower" |} in
  length (List.filter (fun s => String.eqb (id s) "cpu_usage")
                      (unraid_sensors self [])) = 2.
Proof. vm_compute. reflexivity. Qed.

(** C8 (as corrected): the ids of the final list are non-empty and pairwise
    distinct provided the listed containers have pairwise distinct names
    and every command entry has a non-empty key that is not already an id
    of the catalogue; the engine itself neither filters nor deduplicates. *)
Theorem final_ids_unique_nonempty (self : UnraidStats)
    (containers : list ContainerSummary) :
  NoDup (map container_name containers) ->
  (forall cfg, sensor_config self = Some cfg ->
     config_wf cfg /\
     forall k c, sensors cfg !! k = Some (CommandS c) ->
       k <> "" /\ ~ In k (map id (catalog self containers))) ->
  NoDup (map id (unraid_sensors self containers)) /\
  forall s, In s (unraid_sensors self containers) -> id s <> "".
Proof.
  intros Hnames Hcfg.
  destruct (catalog_ids self containers Hnames) as [Hnd Hne].
  unfold unraid_sensors, apply_config.
  destruct (sensor_config self) as [cfg|] eqn:Hsc.
  - destruct (Hcfg cfg eq_refl) as [Hwf Hcmd].
    assert (Hmap : map id (map (override_one cfg) (catalog self containers))
                   = map id (catalog self containers)).
    { rewrite map_map. apply map_ext. apply override_one_id. }
    destruct (command_sensors_of_list (map_to_list (sensors cfg))
                (NoDup_fst_map_to_list _)) as [Hcnd Hcin].
    { intros k v Hkv. apply Hwf. apply elem_of_map_to_list.
      apply list_elem_of_In. exact Hkv. }
    fold (command_sensors cfg) in Hcnd, Hcin.
    assert (Hcin' : forall x, In x (map id (command_sensors cfg)) ->
                      x <> "" /\ ~ In x (map id (catalog self containers))).
    { intros x Hx. destruct (Hcin x Hx) as [c Hc].
      apply Hcmd with c. apply elem_of_map_to_list, list_elem_of_In. exact Hc. }
    split.
    + rewrite map_app, Hmap. apply list.NoDup_app. split; [exact Hnd|split].
      * intros x Hx Hx'. apply list_elem_of_In in Hx, Hx'.
        exact (proj2 (Hcin' x Hx') Hx).
      * exact Hcnd.
    + intros s Hs. apply in_app_or in Hs as [Hs|Hs].
      * apply (in_map id) in Hs. rewrite Hmap in Hs. exact (Hne _ Hs).
      * apply (in_map id) in Hs. exact (proj1 (Hcin' _ Hs)).
  - split; [exact Hnd|]. intros s Hs. apply (in_map id) in Hs. exact (Hne _ Hs).
Qed.

Lemma final_ids_unique_nonempty_witness :
  let cfg := {| sensors := deserialize_sensors
                  {[ "gpu_temp" := command_entry "GPU" "nvidia-smi";
                     "dockercontainer_*_cpu" := override_entry None true ]} |} in
  let self := {| sensor_config := Some cfg; device_name := "tower" |} in
  NoDup (map id (unraid_sensors self [container_named "web"; container_named "db"])).
Proof.
  intros cfg self.
  apply (final_ids_unique_nonempty self [container_named "web"; container_named "db"]).
  - apply (bool_decide_unpack _). vm_compute. reflexivity.
  - intros cfg' Hc. injection Hc as <-. split; [apply deserialize_sensors_wf|].
    intros k c Hk.
    destruct (decide (k = "gpu_temp")) as [->|Hne].
    + split; [discriminate|]. vm_compute. intuition discriminate.
    + exfalso. destruct (decide (k = "dockercontainer_*_cpu")) as [->|Hne2].
      * vm_compute in Hk. discriminate.
      * unfold cfg, deserialize_sensors in Hk. simpl in Hk.
        rewrite map_lookup_imap in Hk.
        rewrite lookup_insert_ne, lookup_singleton_ne in Hk by congruence.
        discriminate.
Defined.

(* ------------------------------------------------------------------ *)
(** ** Lemmas on the integer-to-[f64] conversion *)

Section F64Conversion.
Local Open Scope Z_scope.
Lemma digits2_pos_size (p : positive) : digits2_pos p = Pos.size p.
Proof. induction p; simpl; congruence. Qed.

Lemma shr_1_m (r : shr_record) : 0 <= shr_m r -> shr_m (shr_1 r) = Z.div2 (shr_m r).
Proof.
  destruct r as [m rr ss]; simpl; intros H.
  destruct m as [|[q|q|]|q]; simpl; try reflexivity; lia.
Qed.

Lemma iter_pos_shr_1 (n : positive) (r : shr_record) :
  0 <= shr_m r -> shr_m (SpecFloat.iter_pos shr_1 n r) = shr_m r / 2 ^ Zpos n.
Proof.
  revert r. induction n as [n IH|n IH|]; intros r Hr; simpl.
  - assert (H1 : 0 <= shr_m (shr_1 r)) by (rewrite shr_1_m by exact Hr;
      rewrite Z.div2_div; apply Z.div_pos; lia).
    assert (H2 : 0 <= shr_m (SpecFloat.iter_pos shr_1 n (shr_1 r))) by
      (rewrite IH by exact H1; apply Z.div_pos; [exact H1|apply Z.pow_pos_nonneg; lia]).
    rewrite IH by exact H2. rewrite IH by exact H1. rewrite shr_1_m by exact Hr.
    rewrite Z.div2_div, !Z.div_div by (try apply Z.pow_pos_nonneg; lia).
    f_equal. rewrite Pos2Z.inj_xI.
    replace (2 * Z.pos n + 1) with (1 + Z.pos n + Z.pos n) by lia.
    rewrite !Z.pow_add_r by lia. ring.
  - assert (H2 : 0 <= shr_m (SpecFloat.iter_pos shr_1 n r)) by
      (rewrite IH by exact Hr; apply Z.div_pos; [exact Hr|apply Z.pow_pos_nonneg; lia]).
    rewrite IH by exact H2. rewrite IH by exact Hr.
    rewrite Z.div_div by (try apply Z.pow_pos_nonneg; lia).
    f_equal. rewrite <- Z.pow_add_r by lia. f_equal. lia.
  - rewrite shr_1_m by exact Hr. rewrite Z.div2_div. reflexivity.
Qed.

Lemma pos_size_bounds (q : positive) :
  2 ^ (Zpos (Pos.size q) - 1) <= Zpos q < 2 ^ Zpos (Pos.size q).
Proof.
  pose proof (Pos.size_le q) as Hle. pose proof (Pos.size_gt q) as Hgt.
  apply Pos2Z.pos_le_pos in Hle. apply Pos2Z.pos_lt_pos in Hgt.
  rewrite Pos2Z.inj_pow in Hle, Hgt. change (Zpos q~0) with (2 * Zpos q) in Hle.
  split; [|exact Hgt].
  replace (Zpos (Pos.size q)) with (Z.succ (Zpos (Pos.size q) - 1)) in Hle by lia.
  rewrite Z.pow_succ_r in Hle by lia. lia.
Qed.

Lemma pow2_window_unique (q a b : Z) :
  1 <= a -> 1 <= b ->
  2 ^ (a - 1) <= q < 2 ^ a -> 2 ^ (b - 1) <= q < 2 ^ b -> a = b.
Proof.
  intros Ha Hb [Ha1 Ha2] [Hb1 Hb2].
  destruct (Z.lt_trichotomy a b) as [H|[H|H]]; [|exact H|].
  - assert (2 ^ a <= 2 ^ (b - 1)) by (apply Z.pow_le_mono_r; lia). lia.
  - assert (2 ^ b <= 2 ^ (a - 1)) by (apply Z.pow_le_mono_r; lia). lia.
Qed.

Lemma Zdigits2_53 (m : Z) : 2 ^ 52 <= m < 2 ^ 53 -> Zdigits2 m = 53.
Proof.
  intros Hm. destruct m as [|q|q]; try (simpl in Hm; lia).
  simpl. rewrite digits2_pos_size. f_equal.
  pose proof (pos_size_bounds q). apply Pos2Z.inj.
  apply (pow2_window_unique (Zpos q)); try lia.
Qed.

Lemma shr_fexp_53 (m e : Z) (l : location) :
  2 ^ 52 <= m < 2 ^ 53 -> -1074 <= e ->
  shr_fexp 53 1024 m e l = (shr_record_of_loc m l, e).
Proof.
  intros Hm He. unfold shr_fexp, fexp, emin. rewrite Zdigits2_53 by exact Hm.
  replace (Z.max (53 + e - 53) (3 - 1024 - 53) - e) with 0 by lia.
  reflexivity.
Qed.

Lemma binary_round_aux_53 (m e : Z) :
  2 ^ 52 <= m < 2 ^ 53 -> -1074 <= e <= 971 ->
  exists q, binary_round_aux 53 1024 false m e loc_Exact = S754_finite false q e.
Proof.
  intros Hm He. unfold binary_round_aux.
  rewrite shr_fexp_53 by (exact Hm || lia). simpl.
  rewrite shr_fexp_53 by (exact Hm || lia). simpl.
  destruct m as [|q|q]; try (simpl in Hm; lia).
  exists q. replace (e <=? 1024 - 53) with true by (symmetry; apply Z.leb_le; lia).
  reflexivity.
Qed.

Lemma size_iter_xO (p k : positive) :
  Zpos (Pos.size (Pos.iter xO p k)) = Zpos (Pos.size p) + Zpos k.
Proof.
  induction k as [|k IH] using Pos.peano_ind.
  - simpl. lia.
  - rewrite Pos.iter_succ. simpl. rewrite Pos2Z.inj_succ, IH. lia.
Qed.

Lemma round_nearest_even_cases (m : Z) (l : location) :
  round_nearest_even m l = m \/ round_nearest_even m l = m + 1.
Proof.
  destruct l as [|[]]; simpl; auto. destruct (Z.even m); auto.
Qed.

Lemma shr_fexp_second (m1 e : Z) :
  2 ^ 52 <= m1 <= 2 ^ 53 -> -1074 <= e ->
  exists q e'', shr_fexp 53 1024 m1 e loc_Exact
                = ({| shr_m := Zpos q; shr_r := false; shr_s := false |}, e'')
             /\ e'' <= e + 1.
Proof.
  intros Hm He. destruct (Z.eq_dec m1 (2 ^ 53)) as [->|Hne].
  - unfold shr_fexp, fexp, emin. change (Zdigits2 (2 ^ 53)) with 54.
    replace (Z.max (54 + e - 53) (3 - 1024 - 53) - e) with 1 by lia.
    eexists _, _. split; [reflexivity|lia].
  - rewrite shr_fexp_53 by lia. destruct m1 as [|q|q]; try lia.
    exists q, e. split; [reflexivity|lia].
Qed.

Lemma f64_of_Z_pos_finite (p : positive) :
  Zpos p < 2 ^ 64 -> exists m e, f64_of_Z (Zpos p) = S754_finite false m e.
Proof.
  intros Hp. pose proof (pos_size_bounds p) as [Hlo Hhi].
  unfold f64_of_Z, binary_normalize, binary_round.
  rewrite digits2_pos_size. set (s := Zpos (Pos.size p)) in *.
  assert (Hs : s <= 64).
  { destruct (Z.le_gt_cases s 64) as [H|H]; [exact H|].
    assert (2 ^ 64 <= 2 ^ (s - 1)) by (apply Z.pow_le_mono_r; lia). lia. }
  assert (Hs1 : 1 <= s) by (unfold s; lia).
  replace (fexp 53 1024 (s + 0)) with (s - 53) by (unfold fexp, emin; lia).
  unfold shl_align. destruct (s - 53 - 0) as [|k|k] eqn:E.
  - assert (Hs53 : s = 53) by lia. rewrite Hs53 in Hlo, Hhi.
    destruct (binary_round_aux_53 (Zpos p) 0) as [q Hq]; [lia|lia|].
    exists q, 0. exact Hq.
  - unfold binary_round_aux, shr_fexp at 1, fexp at 1, emin.
    cbv [Zdigits2]. rewrite digits2_pos_size. fold s.
    replace (Z.max (s + 0 - 53) (3 - 1024 - 53) - 0) with (Zpos k) by lia.
    cbv [shr shr_record_of_loc].
    assert (Hk : s = 53 + Zpos k) by lia.
    pose proof (iter_pos_shr_1 k {| shr_m := Zpos p; shr_r := false; shr_s := false |})
      as Hit. simpl shr_m at 2 in Hit.
    destruct (SpecFloat.iter_pos shr_1 k {| shr_m := Zpos p; shr_r := false; shr_s := false |})
      as [m' rr ss]. simpl in Hit. specialize (Hit ltac:(lia)).
    cbv [shr_m].
    assert (Hpk : 0 < 2 ^ Zpos k) by (apply Z.pow_pos_nonneg; lia).
    assert (Hm'lo : 2 ^ 52 <= m').
    { rewrite Hit. apply Z.div_le_lower_bound; [lia|].
      rewrite <- Z.pow_add_r by lia. replace (Zpos k + 52) with (s - 1) by lia. lia. }
    assert (Hm'hi : m' < 2 ^ 53).
    { rewrite Hit. apply Z.div_lt_upper_bound; [lia|].
      rewrite <- Z.pow_add_r by lia. replace (Zpos k + 53) with s by lia. lia. }
    destruct (shr_fexp_second (round_nearest_even m' (loc_of_shr_record
      {| shr_m := m'; shr_r := rr; shr_s := ss |})) (0 + Zpos k)) as (q & e'' & Hq & He'').
    + destruct (round_nearest_even_cases m' (loc_of_shr_record
        {| shr_m := m'; shr_r := rr; shr_s := ss |})) as [H|H]; rewrite H; lia.
    + lia.
    + rewrite Hq. exists q, e''.
      replace (e'' <=? 1024 - 53) with true by (symmetry; apply Z.leb_le; lia).
      reflexivity.
  - pose proof (pos_size_bounds (Pos.iter xO p k)) as Hb.
    rewrite size_iter_xO in Hb. fold s in Hb.
    replace (s + Zpos k) with 53 in Hb by lia.
    destruct (binary_round_aux_53 (Zpos (Pos.iter xO p k)) (s - 53)) as [q Hq];
      [lia|lia|].
    exists q, (s - 53). exact Hq.
Qed.

End F64Conversion.

(* ------------------------------------------------------------------ *)
(** ** Claim on the memory-usage system reporter *)

(** C7 (counterexample): with total and used memory both 0 the
    memory-usage reporter yields ["NaN"] (0.0 / 0.0), not a defined 0. *)
Lemma memory_usage_zero_total_counterexample :
  system_get_value (memory_usage_reporter 0 0) = Some "NaN" /\
  system_get_value (memory_usage_reporter 0 0) <> Some "0.0" /\
  system_get_value (memory_usage_reporter 0 0) <> Some "0".
Proof. vm_compute. split; [reflexivity|split; discriminate]. Qed.

(** C7 (as corrected): [SystemSensorReporter::get_value] always returns a
    value, and for the memory-usage stat with a snapshot whose total memory
    is 0 (and used memory a [u64]) the value is ["NaN"] when used memory is
    0 and ["inf"] when it is positive: the IEEE division by zero is not
    guarded. *)
Theorem memory_usage_total_zero :
  (forall self : SystemSensorReporter, exists v, system_get_value self = Some v) /\
  (forall snap : SystemSnapshot,
     total_memory snap = 0%Z -> (0 <= used_memory snap < 2 ^ 64)%Z ->
     system_get_value {| system := snap; ssr_name := SystemSensorReporterStat.MemoryUsage |}
     = Some (if (used_memory snap =? 0)%Z then "NaN" else "inf")).
Proof.
  split.
  - intros [snap []]; simpl; eexists; reflexivity.
  - intros snap Ht Hu. unfold system_get_value; simpl. rewrite Ht.
    destruct (used_memory snap) as [|p|p] eqn:E; [reflexivity| |lia].
    simpl Z.eqb. cbv iota.
    destruct (f64_of_Z_pos_finite p ltac:(lia)) as (m & e & Hf).
    rewrite Hf. reflexivity.
Qed.

(** Witness: 8 GiB used against a snapshot reporting no total memory. *)
Lemma memory_usage_total_zero_witness :
  system_get_value (memory_usage_reporter 0 8589934592) = Some "inf".
Proof.
  destruct memory_usage_total_zero as [_ H].
  apply (H {| total_memory := 0; used_memory := 8589934592;
              global_cpu_usage := f64_zero; uptime_secs := 0 |}); simpl; lia.
Defined.

(* ================================================================== *)
(** * Further properties of the crate *)

Lemma strip_prefix_app (p r : string) : strip_prefix p (p ++ r) = Some r.
Proof. induction p as [|a p IH]; simpl; [reflexivity|]. rewrite Ascii.eqb_refl. exact IH. Qed.

Lemma strip_prefix_starts (p s : string) :
  strip_prefix p s = None <-> String.prefix p s = false.
Proof.
  revert s. induction p as [|a p IH]; intros [|b s]; simpl; try (split; congruence).
  destruct (ascii_dec a b) as [->|Hne].
  - rewrite Ascii.eqb_refl. apply IH.
  - rewrite (proj2 (Ascii.eqb_neq a b) Hne). split; reflexivity.
Qed.

Lemma find_app_skip {A} (p : A -> bool) (l1 l2 : list A) :
  (forall x, In x l1 -> p x = false) -> List.find p (l1 ++ l2) = List.find p l2.
Proof.
  induction l1 as [|x l1 IH]; intros H; simpl; [reflexivity|].
  rewrite (H x (or_introl eq_refl)). apply IH. intros y Hy. apply H. now right.
Qed.

Lemma find_none {A} (p : A -> bool) (l : list A) :
  (forall x, In x l -> p x = false) -> List.find p l = None.
Proof.
  intros H. rewrite <- (app_nil_r l). rewrite find_app_skip by exact H. reflexivity.
Qed.

Lemma trim_start_once (p r : string) :
  p <> "" -> String.prefix p r = false ->
  trim_start_matches_str p (p ++ r) = r.
Proof.
  intros Hp Hr. unfold trim_start_matches_str.
  destruct (String.eqb_spec p "") as [E|_]; [congruence|].
  simpl. rewrite strip_prefix_app.
  destruct (String.length (p ++ r)); simpl; [reflexivity|].
  rewrite (proj2 (strip_prefix_starts p r) Hr). reflexivity.
Qed.

Lemma str_app_cons (x : ascii) (a b : string) : String x a ++ b = String x (a ++ b).
Proof. reflexivity. Qed.

Lemma str_app_nil_l (a : string) : "" ++ a = a.
Proof. reflexivity. Qed.

Lemma str_app_assoc (a b c : string) : (a ++ b) ++ c = a ++ (b ++ c).
Proof. induction a as [|x a IH]; [reflexivity|]. rewrite !str_app_cons, IH. reflexivity. Qed.

Lemma str_app_nil_r (a : string) : a ++ "" = a.
Proof. induction a as [|x a IH]; [reflexivity|]. rewrite str_app_cons, IH. reflexivity. Qed.

Lemma string_rev_app (a b : string) : string_rev (a ++ b) = string_rev b ++ string_rev a.
Proof.
  induction a as [|x a IH].
  - rewrite str_app_nil_l, str_app_nil_r. reflexivity.
  - rewrite str_app_cons. simpl. rewrite IH, str_app_assoc. reflexivity.
Qed.

Lemma string_rev_involutive (a : string) : string_rev (string_rev a) = a.
Proof.
  induction a as [|x a IH]; simpl; [reflexivity|].
  rewrite string_rev_app, IH. reflexivity.
Qed.

Lemma prefix_split (p s : string) :
  String.prefix p s = true -> exists t, s = p ++ t.
Proof.
  revert s. induction p as [|a p IH]; intros [|b s]; simpl; try discriminate.
  - intros _. exists EmptyString. reflexivity.
  - intros _. exists (String b s). reflexivity.
  - destruct (ascii_dec a b) as [->|]; [|discriminate].
    intros H. destruct (IH s H) as [t ->]. exists t. reflexivity.
Qed.

Lemma trim_end_once (p d : string) :
  p <> "" -> (forall d', d <> d' ++ p) ->
  trim_end_matches_str p (d ++ p) = d.
Proof.
  intros Hp Hd. unfold trim_end_matches_str. rewrite string_rev_app.
  rewrite trim_start_once.
  - apply string_rev_involutive.
  - intros E. apply Hp. rewrite <- (string_rev_involutive p), E. reflexivity.
  - destruct (String.prefix (string_rev p) (string_rev d)) eqn:E; [|reflexivity].
    destruct (prefix_split _ _ E) as [t Ht]. exfalso. apply (Hd (string_rev t)).
    rewrite <- (string_rev_involutive d), Ht, string_rev_app, string_rev_involutive.
    reflexivity.
Qed.

Lemma trim_end_app_char (c : ascii) (v : string) :
  has_char c v = false -> trim_end_matches c (v ++ String c "") = v.
Proof.
  induction v as [|a v IH]; simpl; intros H.
  - rewrite Ascii.eqb_refl. reflexivity.
  - apply Bool.orb_false_iff in H as [Ha Hv]. rewrite (IH Hv), Ha.
    rewrite Bool.andb_false_r. reflexivity.
Qed.

Lemma trim_matches_quoted (c : ascii) (v : string) :
  has_char c v = false -> trim_matches c (String c (v ++ String c "")) = v.
Proof.
  intros H. unfold trim_matches. simpl. rewrite Ascii.eqb_refl.
  destruct v as [|a v'].
  - simpl. rewrite Ascii.eqb_refl. reflexivity.
  - simpl in *. apply Bool.orb_false_iff in H as [Ha Hv]. rewrite Ha.
    change (String a (v' ++ String c "")) with (String a v' ++ String c "").
    apply trim_end_app_char. simpl. rewrite Ha, Hv. reflexivity.
Qed.




Lemma str_app_inv_tail (a b c : string) : a ++ c = b ++ c -> a = b.
Proof.
  intros H. apply list_ascii_of_string_inj.
  apply (f_equal list_ascii_of_string) in H. rewrite !list_ascii_of_string_app in H.
  exact (app_inv_tail _ _ _ H).
Qed.

Lemma str_app_inv_head (a b c : string) : c ++ a = c ++ b -> a = b.
Proof. intros H. exact (String.app_inj c a b H). Qed.

Lemma NoDup_map_transfer {A B C} (f : A -> B) (g : A -> C) (l : list A) :
  (forall x y, g x = g y -> f x = f y) -> NoDup (map f l) -> NoDup (map g l).
Proof.
  intros Hfg. induction l as [|x l IH]; simpl; intros Hnd; [constructor|].
  apply list.NoDup_cons in Hnd as [Hx Hnd]. apply list.NoDup_cons. split; [|exact (IH Hnd)].
  intros Hin. apply Hx. apply list_elem_of_In in Hin. apply in_map_iff in Hin as (y & Hy & Hyl).
  apply list_elem_of_In, in_map_iff. exists y. split; [symmetry; apply Hfg; congruence|exact Hyl].
Qed.

Lemma override_one_reporter (cfg : Config) (s : Sensor) :
  reporter (override_one cfg s) = reporter s.
Proof.
  assert (Hm : forall s p, reporter (merge s p) = reporter s).
  { intros s' p. unfold merge. destruct (_ && _); reflexivity. }
  unfold override_one.
  destruct (sensors cfg !! star_id (id s)) as [[u|]|];
    try destruct (sensors cfg !! id (merge s u)) as [[u'|]|];
    try destruct (sensors cfg !! id s) as [[u'|]|];
    rewrite ?Hm; reflexivity.
Qed.

(** X4: state topics and discovery topics of sensors with pairwise distinct
    ids are pairwise distinct (for one node id and discovery prefix). *)
Theorem topics_distinct (l : list Sensor) (discovery_prefix node_id : string) :
  NoDup (map id l) ->
  NoDup (map (fun s => sensor_topic s node_id) l) /\
  NoDup (map (fun s => discovery_topic s discovery_prefix node_id) l).
Proof.
  intros Hnd. split; apply (NoDup_map_transfer id); try exact Hnd; intros x y H.
  - unfold sensor_topic in H. apply str_app_inv_head, str_app_inv_head in H.
    exact (str_app_inv_tail _ _ _ H).
  - unfold discovery_topic in H.
    do 4 apply str_app_inv_head in H. exact (str_app_inv_tail _ _ _ H).
Qed.

(** X5: [Sensor::merge] is idempotent: applying the same override twice is
    the same as applying it once. *)
Theorem merge_idempotent (s : Sensor) (p : SensorConfig) :
  merge (merge s p) p = merge s p.
Proof.
  pose proof (merge_id s p) as Hid.
  unfold merge at 1. rewrite Hid.
  destruct (negb (String.eqb (id s) (sc_id p)) && negb (contains "_*_" (sc_id p))) eqn:G;
    [reflexivity|].
  unfold merge. rewrite G. simpl.
  destruct (sc_name p), (sc_unit p), (sc_device_class p), (sc_icon p), (sc_disabled p);
    reflexivity.
Qed.

(** X6: the override loop never adds, drops, reorders or re-targets the
    listed sensors: the result starts with the input's ids and reporters in
    order, and what follows are exactly the configuration's command entries,
    one per key, each with its key as id. *)
Theorem apply_config_shape (cfg : option Config) (l : list Sensor) :
  map (fun s => (id s, reporter s)) (take (length l) (apply_config cfg l))
    = map (fun s => (id s, reporter s)) l /\
  (cfg = None -> apply_config cfg l = l) /\
  (forall c, cfg = Some c -> config_wf c ->
     NoDup (map id (drop (length l) (apply_config cfg l))) /\
     forall k, In k (map id (drop (length l) (apply_config cfg l))) <->
               exists cs, sensors c !! k = Some (CommandS cs)).
Proof.
  destruct cfg as [c|]; simpl.
  - rewrite take_app_length', drop_app_length' by (rewrite length_map; reflexivity).
    split.
    { rewrite map_map. apply map_ext. intros s. rewrite override_one_id, override_one_reporter.
      reflexivity. }
    split; [discriminate|]. intros c' [= <-] Hwf.
    destruct (command_sensors_of_list (map_to_list (sensors c)) (NoDup_fst_map_to_list _))
      as [Hnd Hin].
    { intros k v Hkv. apply Hwf. apply elem_of_map_to_list, list_elem_of_In. exact Hkv. }
    split; [exact Hnd|]. intros k. split.
    + intros Hk. destruct (Hin k Hk) as [cs Hcs]. exists cs.
      apply elem_of_map_to_list, list_elem_of_In. exact Hcs.
    + intros [cs Hcs]. unfold command_sensors.
      assert (Hm : In (k, CommandS cs) (map_to_list (sensors c)))
        by (apply list_elem_of_In, elem_of_map_to_list; exact Hcs).
      assert (Hid : cmd_id cs = k) by exact (Hwf k (CommandS cs) Hcs).
      apply in_map_iff. exists (sensor_of_command cs). split; [exact Hid|].
      apply list_elem_of_In, list_elem_of_omap. exists (k, CommandS cs).
      split; [apply list_elem_of_In; exact Hm|reflexivity].
  - rewrite firstn_all. split; [reflexivity|]. split; [reflexivity|discriminate].
Qed.


Lemma all_digits_app (s t : string) : all_digits (s ++ t) = all_digits s && all_digits t.
Proof.
  induction s as [|a s IH]; [reflexivity|]. rewrite str_app_cons. simpl.
  rewrite IH, Bool.andb_assoc. reflexivity.
Qed.

Lemma decimal_digits_app (s t : string) (acc : Z) :
  decimal_digits (s ++ t) acc = decimal_digits s acc ≫= fun a => decimal_digits t a.
Proof.
  revert acc. induction s as [|a s IH]; intros acc; [reflexivity|].
  rewrite str_app_cons. simpl. destruct (_ && _); [apply IH|reflexivity].
Qed.

Lemma digit_char (r : Z) : (0 <= r < 10)%Z ->
  nat_of_ascii (ascii_of_nat (48 + Z.to_nat r)) = (48 + Z.to_nat r)%nat.
Proof. intros Hr. apply nat_ascii_embedding. lia. Qed.

Lemma digit_step (r acc : Z) : (0 <= r < 10)%Z ->
  decimal_digits (String (ascii_of_nat (48 + Z.to_nat r)) EmptyString) acc
    = Some (acc * 10 + r)%Z /\
  all_digits (String (ascii_of_nat (48 + Z.to_nat r)) EmptyString) = true.
Proof.
  intros Hr. cbn [decimal_digits all_digits]. unfold is_numeric.
  rewrite (digit_char r Hr).
  replace (Nat.leb 48 (48 + Z.to_nat r) && Nat.leb (48 + Z.to_nat r) 57) with true
    by (symmetry; apply andb_true_intro; split; apply Nat.leb_le; lia).
  split; [|reflexivity]. f_equal. rewrite Nat.add_comm, Nat.add_sub. lia.
Qed.

Lemma digits_rev_S (f : nat) (n : Z) :
  digits_rev (S f) n =
  if (n <? 10)%Z then String (ascii_of_nat (48 + Z.to_nat (n mod 10))) EmptyString
  else digits_rev f (n / 10) ++ String (ascii_of_nat (48 + Z.to_nat (n mod 10))) EmptyString.
Proof. reflexivity. Qed.

Lemma digits_rev_ok (f : nat) : forall (n acc : Z),
  (0 <= n < 10 ^ Z.of_nat (S f))%Z ->
  (exists k, (0 <= k)%Z /\ decimal_digits (digits_rev (S f) n) acc = Some (acc * 10 ^ k + n)%Z) /\
  all_digits (digits_rev (S f) n) = true /\ digits_rev (S f) n <> "".
Proof.
  induction f as [|f IH]; intros n acc Hn.
  - change (Z.of_nat 1) with 1%Z in Hn. rewrite Z.pow_1_r in Hn. rewrite digits_rev_S. replace (n <? 10)%Z with true by (symmetry; apply Z.ltb_lt; lia).
    assert (Hm : (n mod 10 = n)%Z) by (apply Z.mod_small; lia). rewrite Hm.
    destruct (digit_step n acc ltac:(lia)) as [H1 H2].
    split; [exists 1%Z; split; [lia|]; rewrite H1; f_equal; lia|]. split; [exact H2|discriminate].
  - rewrite digits_rev_S. destruct (n <? 10)%Z eqn:E.
    + apply Z.ltb_lt in E. assert (Hm : (n mod 10 = n)%Z) by (apply Z.mod_small; lia).
      rewrite Hm. destruct (digit_step n acc ltac:(lia)) as [H1 H2].
      split; [exists 1%Z; split; [lia|]; rewrite H1; f_equal; lia|]. split; [exact H2|discriminate].
    + apply Z.ltb_ge in E.
      assert (Hq : (0 <= n / 10 < 10 ^ Z.of_nat (S f))%Z).
      { split; [apply Z.div_pos; lia|]. apply Z.div_lt_upper_bound; [lia|].
        rewrite <- Z.pow_succ_r by lia. replace (Z.succ (Z.of_nat (S f))) with (Z.of_nat (S (S f))) by lia.
        lia. }
      destruct (IH (n / 10)%Z acc Hq) as [[k [Hk Hd]] [Ha Hne]].
      assert (Hr : (0 <= n mod 10 < 10)%Z) by (apply Z.mod_pos_bound; lia).
      destruct (digit_step (n mod 10) (acc * 10 ^ k + n / 10) Hr) as [H1 H2].
      split; [|split].
      * exists (k + 1)%Z. split; [lia|]. rewrite decimal_digits_app, Hd. cbn [mbind option_bind]. rewrite H1.
        f_equal. rewrite Z.pow_add_r, Z.pow_1_r by lia.
        pose proof (Z.div_mod n 10 ltac:(lia)) as Hdm.
        set (q := (n / 10)%Z) in *. set (r := (n mod 10)%Z) in *.
        rewrite Hdm. ring.
      * rewrite all_digits_app, Ha, H2. reflexivity.
      * intros H. destruct (digits_rev (S f) (n / 10)); [congruence|discriminate].
Qed.

Lemma display_digits (n : Z) : (0 <= n)%Z ->
  display_Z n = digits_rev (S (Z.to_nat (Z.log2 n))) n /\
  (0 <= n < 10 ^ Z.of_nat (S (Z.to_nat (Z.log2 n))))%Z.
Proof.
  intros Hn. unfold display_Z. replace (n <? 0)%Z with false by (symmetry; apply Z.ltb_ge; lia).
  split; [reflexivity|]. split; [exact Hn|].
  destruct (Z.eq_dec n 0%Z) as [->|Hne]; [simpl; lia|].
  destruct (Z.log2_spec n ltac:(lia)) as [_ Hhi].
  rewrite Nat2Z.inj_succ, Z2Nat.id by apply Z.log2_nonneg.
  eapply Z.lt_le_trans; [exact Hhi|]. apply Z.pow_le_mono_l. split; [lia|lia].
Qed.

Lemma parse_digits_string (s : string) :
  all_digits s = true -> s <> "" -> parse_i64 s = parse_i64_digits false s.
Proof.
  destruct s as [|a r]; [congruence|]. simpl. intros H _.
  apply andb_prop in H as [Ha _]. unfold is_numeric in Ha. apply andb_prop in Ha as [Ha1 _].
  apply Nat.leb_le in Ha1.
  destruct (Ascii.eqb_spec a "+") as [->|_]; [cbv in Ha1; lia|].
  destruct (Ascii.eqb_spec a "-") as [->|_]; [cbv in Ha1; lia|]. reflexivity.
Qed.

Lemma parse_i64_display (n : Z) : (- 2 ^ 63 <= n < 2 ^ 63)%Z -> parse_i64 (display_Z n) = Some n.
Proof.
  intros Hn. destruct (Z.le_gt_cases 0 n) as [Hpos|Hneg].
  - destruct (display_digits n Hpos) as [Hd Hb]. rewrite Hd.
    destruct (digits_rev_ok _ n 0 Hb) as [[k [_ Hk]] [Ha Hne]].
    rewrite parse_digits_string by assumption. unfold parse_i64_digits.
    rewrite (proj2 (String.eqb_neq _ _) Hne), Hk.
    replace (- 2 ^ 63 <=? 0 * 10 ^ k + n)%Z with true by (symmetry; apply Z.leb_le; lia).
    replace (0 * 10 ^ k + n <? 2 ^ 63)%Z with true by (symmetry; apply Z.ltb_lt; lia).
    f_equal; lia.
  - unfold display_Z. replace (n <? 0)%Z with true by (symmetry; apply Z.ltb_lt; lia).
    destruct (display_digits (- n) ltac:(lia)) as [_ Hb].
    destruct (digits_rev_ok _ (- n) 0 Hb) as [[k [_ Hk]] [Ha Hne]].
    change ("-" ++ digits_rev (S (Z.to_nat (Z.log2 (- n)))) (- n))
      with (String "-" (digits_rev (S (Z.to_nat (Z.log2 (- n)))) (- n))).
    set (d := digits_rev (S (Z.to_nat (Z.log2 (- n)))) (- n)) in *.
    change (parse_i64 (String "-" d)) with (parse_i64_digits true d). unfold parse_i64_digits.
    rewrite (proj2 (String.eqb_neq _ _) Hne), Hk.
    replace (- (0 * 10 ^ k + - n))%Z with n by lia.
    replace (- 2 ^ 63 <=? n)%Z with true by (symmetry; apply Z.leb_le; lia).
    replace (n <? 2 ^ 63)%Z with true by (symmetry; apply Z.ltb_lt; lia).
    reflexivity.
Qed.

Lemma parse_i64_range (s : string) (v : Z) :
  parse_i64 s = Some v -> (- 2 ^ 63 <= v < 2 ^ 63)%Z.
Proof.
  assert (H : forall neg d, parse_i64_digits neg d = Some v -> (- 2 ^ 63 <= v < 2 ^ 63)%Z).
  { intros neg d. unfold parse_i64_digits. destruct (String.eqb d ""); [discriminate|].
    destruct (decimal_digits d 0); [|discriminate].
    destruct (_ && _) eqn:E; [|discriminate]. intros [= <-].
    apply andb_prop in E as [E1 E2]. apply Z.leb_le in E1. apply Z.ltb_lt in E2. lia. }
  destruct s as [|a r]; simpl; [discriminate|].
  destruct (Ascii.eqb a "+"); [apply H|]. destruct (Ascii.eqb a "-"); apply H.
Qed.

(** X8: [ParseInteger] post-processing round-trips [i64]: parsing the
    rendering of any [i64] gives it back, every parsed value is within the
    [i64] range (larger inputs give [None]), so the transform applied to its
    own output reproduces it. *)
Theorem parse_integer_round_trip (parse_f64 : string -> option f64)
    (display_f64 : f64 -> string) :
  (forall n, (- 2 ^ 63 <= n < 2 ^ 63)%Z -> parse_i64 (display_Z n) = Some n) /\
  (forall s v, parse_i64 s = Some v -> (- 2 ^ 63 <= v < 2 ^ 63)%Z) /\
  (forall s v,
     apply_transform parse_f64 display_f64 (FromPostProcess (Some ParseInteger)) s = Some v ->
     apply_transform parse_f64 display_f64 (FromPostProcess (Some ParseInteger)) v = Some v).
Proof.
  split; [exact parse_i64_display|]. split; [exact parse_i64_range|].
  intros s v. simpl. destruct (parse_i64 s) as [n|] eqn:E; simpl; [|discriminate].
  intros [= <-]. rewrite parse_i64_display by exact (parse_i64_range s n E). reflexivity.
Qed.

Lemma parse_integer_round_trip_witness :
  parse_i64 (display_Z (-42)) = Some (-42)%Z /\
  apply_transform parse_f64_decimal (fun _ => "") (FromPostProcess (Some ParseInteger)) "42"
    = Some "42".
Proof.
  split.
  - apply (proj1 (parse_integer_round_trip parse_f64_decimal (fun _ => ""))). lia.
  - apply (proj2 (proj2 (parse_integer_round_trip parse_f64_decimal (fun _ => ""))) "+042").
    vm_compute. reflexivity.
Defined.

Lemma trim_start_by_shape (p : ascii -> bool) (s : string) :
  trim_start_by p s = "" \/ exists a r, trim_start_by p s = String a r /\ p a = false.
Proof.
  induction s as [|a s IH]; simpl; [now left|].
  destruct (p a) eqn:E; [exact IH|right; eauto].
Qed.

Lemma trim_start_by_stop (p : ascii -> bool) (a : ascii) (r : string) :
  p a = false -> trim_start_by p (String a r) = String a r.
Proof. intros H. simpl. rewrite H. reflexivity. Qed.

Lemma trim_end_by_keep (p : ascii -> bool) (a : ascii) (r : string) :
  p a = false -> trim_end_by p (String a r) = String a (trim_end_by p r).
Proof. intros H. simpl. rewrite H, Bool.andb_false_r. reflexivity. Qed.

Lemma trim_end_by_idem (p : ascii -> bool) (s : string) :
  trim_end_by p (trim_end_by p s) = trim_end_by p s.
Proof.
  induction s as [|a s IH]; [reflexivity|]. cbn [trim_end_by].
  destruct (String.eqb (trim_end_by p s) "" && p a) eqn:E; [reflexivity|].
  cbn [trim_end_by]. rewrite IH, E. reflexivity.
Qed.

Lemma trim_idem (s : string) : trim (trim s) = trim s.
Proof.
  unfold trim. destruct (trim_start_by_shape is_whitespace s) as [H|(a & r & H & Ha)];
    rewrite H.
  - reflexivity.
  - rewrite trim_end_by_keep by exact Ha. rewrite trim_start_by_stop by exact Ha.
    rewrite <- trim_end_by_keep by exact Ha. apply trim_end_by_idem.
Qed.

(** X9: [CommandSensorReporter::get_value] gives no value when the command
    cannot be run; otherwise it trims the output before any transform, so
    without a transform, with [post_process] absent, or with
    [trim_whitespace], the value is the trimmed output, and trimming it
    again changes nothing. *)
Theorem command_value_trimmed (parse_f64 : string -> option f64)
    (display_f64 : f64 -> string)
    (run : string -> option (list string) -> option string)
    (self : CommandSensorReporter) :
  (run (csr_command self) (csr_args self) = None ->
   command_get_value parse_f64 display_f64 run self = None) /\
  (forall out, run (csr_command self) (csr_args self) = Some out ->
   csr_transform self = None \/ csr_transform self = Some (FromPostProcess None) \/
   csr_transform self = Some (FromPostProcess (Some TrimWhitespace)) ->
   command_get_value parse_f64 display_f64 run self = Some (trim out) /\
   trim (trim out) = trim out).
Proof.
  unfold command_get_value. split; [intros ->; reflexivity|].
  intros out -> Ht. split; [|apply trim_idem].
  destruct Ht as [-> | [-> | ->]]; simpl; [reflexivity|reflexivity|].
  rewrite trim_idem. reflexivity.
Qed.

Lemma command_value_trimmed_witness :
  command_get_value parse_f64_decimal (fun _ => "") (fun _ _ => None)
    {| csr_command := "df"; csr_args := None; csr_transform := None |} = None /\
  command_get_value parse_f64_decimal (fun _ => "") (fun _ _ => Some " up ")
    {| csr_command := "uptime"; csr_args := None;
       csr_transform := Some (FromPostProcess (Some TrimWhitespace)) |} = Some (trim " up ").
Proof.
  split.
  - apply (proj1 (command_value_trimmed parse_f64_decimal (fun _ => "") (fun _ _ => None)
      {| csr_command := "df"; csr_args := None; csr_transform := None |})). reflexivity.
  - apply (proj2 (command_value_trimmed parse_f64_decimal (fun _ => "") (fun _ _ => Some " up ")
      {| csr_command := "uptime"; csr_args := None;
         csr_transform := Some (FromPostProcess (Some TrimWhitespace)) |}) " up " eq_refl).
    right. right. reflexivity.
Defined.

Lemma string_filter_app (f : ascii -> bool) (s t : string) :
  string_filter f (s ++ t) = string_filter f s ++ string_filter f t.
Proof.
  induction s as [|a s IH]; [reflexivity|]. rewrite str_app_cons. simpl.
  destruct (f a); rewrite IH; reflexivity.
Qed.

Lemma string_filter_none (f : ascii -> bool) (s : string) :
  (forall i c, String.get i s = Some c -> f c = false) -> string_filter f s = "".
Proof.
  induction s as [|a s IH]; intros H; [reflexivity|]. simpl.
  rewrite (H 0 a eq_refl). apply IH. intros i c Hi. exact (H (S i) c Hi).
Qed.




(** The three reporters of a container, run in order on their fresh stash. *)
Lemma run_three (display_f64 : f64 -> string)
    (first_stats : nat -> string -> option ContainerStatsSample)
    (c : ContainerSummary) (l : list Sensor) (i : string) (n : nat) :
  cs_id c = Some i ->
  map reporter l = map (fun st => Some (DockerContainer c st))
    [DockerContainerSensorReporterStat.CpuUsage; DockerContainerSensorReporterStat.MemoryUsage;
     DockerContainerSensorReporterStat.Status] ->
  run_container_reporters display_f64 first_stats l (n, None)
  = Some (match first_stats n i with
          | Some s => ([Some (display_f64 (calculate_cpu_percent (sample_cpu s)));
                        Some (display_Z (default 0%Z (memory_stats s ≫= usage)));
                        cs_status c], (S n, Some s))
          | None =>
              match first_stats (S n) i with
              | Some s => ([None; Some (display_Z (default 0%Z (memory_stats s ≫= usage)));
                            cs_status c], (S (S n), Some s))
              | None =>
                  match first_stats (S (S n)) i with
                  | Some s => ([None; None; cs_status c], (S (S (S n)), Some s))
                  | None => ([None; None; None], (S (S (S n)), None))
                  end
              end
          end).
Proof.
  intros Hi Hl. destruct l as [|s1 [|s2 [|s3 [|s4 l]]]]; try discriminate.
  simpl in Hl. injection Hl as H1 H2 H3. simpl. rewrite H1. simpl. rewrite Hi.
  destruct (first_stats n i) as [s|]; simpl; rewrite H2; simpl; [rewrite H3; reflexivity|].
  rewrite Hi. destruct (first_stats (S n) i) as [s|]; simpl; rewrite H3; simpl;
    [reflexivity|]. rewrite Hi. destruct (first_stats (S (S n)) i); reflexivity.
Qed.


Lemma emit_then_none (a k : Emit) : a.2 = None -> emit_then a k = (List.app a.1 k.1, k.2).
Proof. destruct a as [o [e|]], k as [o' r]; simpl; congruence. Qed.

Lemma emit_each_ok {A} (f : A -> Emit) (l : list A) :
  (forall x, (f x).2 = None) -> emit_each f l = (concat (map (fun x => (f x).1) l), None).
Proof.
  intros H. induction l as [|x l IH]; [reflexivity|]. simpl.
  rewrite emit_then_none by apply H. rewrite IH. reflexivity.
Qed.

Lemma emit_each_prefix {A} (f g : A -> Emit) (l : list A) :
  (forall x, f x = g x \/ exists e, f x = ([], Some e)) ->
  (forall x, (g x).2 = None) ->
  (emit_each f l).1 `prefix_of` (emit_each g l).1 /\
  ((emit_each f l).2 = None -> emit_each f l = emit_each g l).
Proof.
  intros Hfg Hg. induction l as [|x l IH]; [split; [reflexivity|auto]|].
  simpl. destruct (Hfg x) as [Hx|[e Hx]].
  - rewrite <- Hx. destruct (f x) as [o [e|]] eqn:Ef.
    + simpl. specialize (Hg x). rewrite <- Hx in Hg. discriminate.
    + simpl. destruct IH as [IH1 IH2].
      destruct (emit_each f l) as [o1 r1], (emit_each g l) as [o2 r2]. simpl in *.
      split; [destruct IH1 as [k ->]; exists k; rewrite List.app_assoc; reflexivity|].
      intros Hr. injection (IH2 Hr) as <- <-. reflexivity.
  - rewrite Hx. simpl. split; [apply prefix_nil|discriminate].
Qed.

Lemma concat_map_single {A B} (f : A -> list B) (h : A -> B) (l : list A) :
  (forall x, In x l -> f x = [h x]) -> concat (map f l) = map h l.
Proof.
  intros H. induction l as [|x l IH]; [reflexivity|]. simpl. rewrite (H x (or_introl eq_refl)).
  simpl. rewrite IH; [reflexivity|]. intros y Hy. apply H. now right.
Qed.

Lemma emit_each_filter {A} (f : A -> Emit) (p : A -> bool) (l : list A) :
  (forall x, p x = false -> f x = ([], None)) ->
  emit_each f l = emit_each f (List.filter p l).
Proof.
  intros H. induction l as [|x l IH]; [reflexivity|]. simpl.
  destruct (p x) eqn:E; simpl; rewrite IH; [reflexivity|].
  rewrite H by exact E. simpl. destruct (emit_each f (List.filter p l)). reflexivity.
Qed.

(** X13: [publish_discovery] sends nothing when discovery is skipped;
    otherwise it sends one retained message per enabled sensor, in order,
    on the sensor's discovery topic with its discovery document (printed
    instead in JSON-output mode), disabled sensors being left out. *)
Theorem publish_discovery_messages (json_to_string : Value -> string)
    (self : UnraidStatsFull) (client : option Client) (containers : list ContainerSummary)
    (version_file : option string) :
  let dn := device_name (stats_self self) in
  let node_id := "unraid_" ++ dn in
  let sensors := List.filter enabled (unraid_sensors (stats_self self) containers) in
  let doc s := json_to_string (disovery_config s dn node_id (get_device_info dn version_file)) in
  (skip_discovery self = true ->
   publish_discovery json_to_string self client containers version_file = ([], None)) /\
  (skip_discovery self = false -> json_output self = false ->
   forall cl, client = Some cl -> (forall t p r, cl t p r = None) ->
   publish_discovery json_to_string self client containers version_file
   = (map (fun s => Publish (discovery_topic s (discovery_prefix self) node_id) (doc s) true)
          sensors, None)) /\
  (skip_discovery self = false -> json_output self = true ->
   publish_discovery json_to_string self client containers version_file
   = (map (fun s => Println (topic_payload (discovery_topic s (discovery_prefix self) node_id)
                                           (doc s))) sensors, None)).
Proof.
  intros dn node_id sensors doc. unfold publish_discovery.
  split; [intros ->; reflexivity|]. split.
  - intros Hs Hj cl -> Hcl. rewrite Hs. fold dn node_id.
    rewrite (emit_each_filter _ enabled) by (intros x E; unfold enabled in E;
      destruct (disabled x); [reflexivity|discriminate]).
    fold sensors. rewrite emit_each_ok.
    + f_equal. apply concat_map_single. intros x Hx. apply filter_In in Hx as [_ Hx].
      unfold enabled in Hx. destruct (disabled x); [discriminate|].
      unfold publish_raw. rewrite Hj, Hcl. reflexivity.
    + intros x. destruct (disabled x); [reflexivity|]. unfold publish_raw. rewrite Hj, Hcl.
      reflexivity.
  - intros Hs Hj. rewrite Hs. fold dn node_id.
    rewrite (emit_each_filter _ enabled) by (intros x E; unfold enabled in E;
      destruct (disabled x); [reflexivity|discriminate]).
    fold sensors. rewrite emit_each_ok.
    + f_equal. apply concat_map_single. intros x Hx. apply filter_In in Hx as [_ Hx].
      unfold enabled in Hx. destruct (disabled x); [discriminate|].
      unfold publish_raw. rewrite Hj. reflexivity.
    + intros x. destruct (disabled x); [reflexivity|]. unfold publish_raw. rewrite Hj.
      reflexivity.
Qed.

(** X14: a refused publish stops [publish_discovery] there: whatever the
    client refuses, what was sent is a prefix of what a client accepting
    everything receives, and all of it when nothing was refused. *)
Theorem publish_discovery_stops_at_error (json_to_string : Value -> string)
    (self : UnraidStatsFull) (cl : Client) (containers : list ContainerSummary)
    (version_file : option string) :
  let accept : Client := fun _ _ _ => None in
  (publish_discovery json_to_string self (Some cl) containers version_file).1
    `prefix_of` (publish_discovery json_to_string self (Some accept) containers version_file).1 /\
  ((publish_discovery json_to_string self (Some cl) containers version_file).2 = None ->
   publish_discovery json_to_string self (Some cl) containers version_file
   = publish_discovery json_to_string self (Some accept) containers version_file).
Proof.
  intros accept. unfold publish_discovery.
  destruct (skip_discovery self); [split; [reflexivity|auto]|].
  apply emit_each_prefix.
  - intros x. destruct (disabled x); [now left|]. unfold publish_raw.
    destruct (json_output self); [now left|].
    destruct (cl _ _ _) as [e|]; [right; eauto|now left].
  - intros x. destruct (disabled x); [reflexivity|]. unfold publish_raw.
    destruct (json_output self); reflexivity.
Qed.

Lemma publish_stats_loop_Forall (state : Type)
    (get_value : SensorReporterType -> state -> option string * state)
    (P : Output -> Prop) (self : UnraidStatsFull) (client : option Client)
    (node_id : string) (l : list Sensor) (st : state) :
  (forall t v, Forall P (publish_ha_state self client t v).1) ->
  Forall P (publish_stats_loop state get_value self client node_id l st).1.1.
Proof.
  intros HP. revert st. induction l as [|s l IH]; intros st; simpl; [constructor|].
  destruct (disabled s); [apply IH|].
  destruct (reporter s) as [r|]; [|apply IH].
  destruct (get_value r st) as [[v|] st1]; [|apply IH].
  specialize (HP (sensor_topic s node_id) v).
  destruct (publish_ha_state self client (sensor_topic s node_id) v) as [o [e|]]; [exact HP|].
  specialize (IH st1). destruct (publish_stats_loop state get_value self client node_id l st1)
    as [[o' r'] st2]. simpl in *. apply Forall_app. split; assumption.
Qed.

Lemma publish_stats_loop_ok (state : Type)
    (get_value : SensorReporterType -> state -> option string * state)
    (self : UnraidStatsFull) (client : option Client)
    (node_id : string) (l : list Sensor) (st : state) :
  (forall t v, (publish_ha_state self client t v).2 = None) ->
  (publish_stats_loop state get_value self client node_id l st).1.2 = None.
Proof.
  intros HP. revert st. induction l as [|s l IH]; intros st; simpl; [reflexivity|].
  destruct (disabled s); [apply IH|].
  destruct (reporter s) as [r|]; [|apply IH].
  destruct (get_value r st) as [[v|] st1]; [|apply IH].
  specialize (HP (sensor_topic s node_id) v).
  destruct (publish_ha_state self client (sensor_topic s node_id) v) as [o [e|]];
    [discriminate|].
  specialize (IH st1). destruct (publish_stats_loop state get_value self client node_id l st1)
    as [[o' r'] st2]. exact IH.
Qed.

(** X15: [publish_stats] never sends a retained message: over MQTT every
    message it sends is a non-retained state update; in JSON-output mode it
    only prints [{topic, payload}] lines and cannot fail; with neither a
    client nor JSON output it emits nothing and succeeds. *)
Theorem publish_stats_outputs (state : Type)
    (get_value : SensorReporterType -> state -> option string * state)
    (self : UnraidStatsFull) (client : option Client)
    (containers : list ContainerSummary) (st : state) :
  let r := (publish_stats state get_value self client containers st).1 in
  (json_output self = false -> Forall (fun o => exists t p, o = Publish t p false) r.1) /\
  (json_output self = true ->
   r.2 = None /\ Forall (fun o => exists t p, o = Println (topic_payload t p)) r.1) /\
  (json_output self = false -> client = None -> r = ([], None)).
Proof.
  intros r. unfold r, publish_stats. split; [|split].
  - intros Hj. apply publish_stats_loop_Forall. intros t v. unfold publish_ha_state.
    rewrite Hj. destruct client as [cl|]; [|constructor].
    unfold publish_raw. rewrite Hj. destruct (cl t v false); repeat constructor; eauto.
  - intros Hj. split.
    + apply publish_stats_loop_ok. intros t v. unfold publish_ha_state. rewrite Hj. reflexivity.
    + apply publish_stats_loop_Forall. intros t v. unfold publish_ha_state. rewrite Hj.
      repeat constructor. eauto.
  - intros Hj ->.
    assert (Hn : forall l st, (publish_stats_loop state get_value self None
                                 ("unraid_" ++ device_name (stats_self self)) l st).1 = ([], None)).
    { induction l as [|s l IH]; intros st'; simpl; [reflexivity|].
      destruct (disabled s); [apply IH|]. destruct (reporter s) as [rp|]; [|apply IH].
      destruct (get_value rp st') as [[v|] st1]; [|apply IH].
      unfold publish_ha_state. rewrite Hj.
      specialize (IH st1).
      destruct (publish_stats_loop state get_value self None _ l st1) as [[o' r'] st2].
      simpl in *. rewrite IH. reflexivity. }
    apply Hn.
Qed.

Lemma emit_each_Forall {A} (P : Output -> Prop) (f : A -> Emit) (l : list A) :
  (forall x, Forall P (f x).1) -> Forall P (emit_each f l).1.
Proof.
  intros H. induction l as [|x l IH]; simpl; [constructor|].
  specialize (H x). destruct (f x) as [o [e|]]; [exact H|]. simpl.
  destruct (emit_each f l) as [o' r']. apply Forall_app. split; assumption.
Qed.

Lemma emit_then_Forall (P : Output -> Prop) (a k : Emit) :
  Forall P a.1 -> Forall P k.1 -> Forall P (emit_then a k).1.
Proof.
  destruct a as [o [e|]], k as [o' r]; simpl; intros; [assumption|].
  apply Forall_app. split; assumption.
Qed.


Lemma dump_sensors_fold (l : list Sensor) (m : gmap string Sensor) (k : string) :
  fold_left (fun m s => <[id s := s]> m) l m !! k
  = match list.last (List.filter (fun s => String.eqb (id s) k) l) with
    | Some s => Some s
    | None => m !! k
    end.
Proof.
  revert m. induction l as [|x l IH]; intros m; [reflexivity|]. simpl. rewrite IH.
  destruct (String.eqb (id x) k) eqn:E.
  - apply String.eqb_eq in E. rewrite last_cons.
    destruct (list.last (List.filter _ l)); [reflexivity|]. subst k. apply lookup_insert_eq.
  - apply String.eqb_neq in E. destruct (list.last (List.filter _ l)); [reflexivity|].
    apply lookup_insert_ne. exact E.
Qed.

(** X17: the sensor dump is keyed by id and keeps, for each id, the last
    sensor of the list with that id (a later sensor, such as a command entry
    reusing an id, replaces an earlier one); ids absent from the list have
    no entry. *)
Theorem dump_sensors_last (l : list Sensor) (k : string) :
  dump_sensors l !! k = list.last (List.filter (fun s => String.eqb (id s) k) l).
Proof.
  unfold dump_sensors. rewrite dump_sensors_fold.
  destruct (list.last _); reflexivity.
Qed.

(** X18: the sensor lists in [docker_stats] agree with [UnraidStats]:
    [sensor_list] is the last five built-in sensors, and
    [container_sensors]/[container_sensor_list] build the same sensors as
    [UnraidStats::container_sensors] for the same device name. *)
Theorem docker_stats_lists_agree (self : UnraidStats) (containers : list ContainerSummary) :
  docker_sensor_list = drop 10 builtin_sensors /\
  container_sensor_list (device_name self) containers
  = flat_map (container_sensors self) containers.
Proof.
  split; [reflexivity|]. unfold container_sensor_list. apply flat_map_ext. intros c.
  reflexivity.
Qed.

Lemma fold_i64_add (l : list Z) (acc : Z) :
  Forall (fun z => 0 <= z)%Z l -> (0 <= acc)%Z -> (acc + fold_right Z.add 0 l < 2 ^ 63)%Z ->
  fold_left i64_add l acc = (acc + fold_right Z.add 0 l)%Z.
Proof.
  revert acc. induction l as [|x l IH]; intros acc Hl Ha Hs; simpl in *; [lia|].
  apply Forall_cons_1 in Hl as [Hx Hl].
  assert (Hr : (0 <= fold_right Z.add 0 l)%Z).
  { clear -Hl. induction Hl; simpl; lia. }
  assert (E : i64_add acc x = (acc + x)%Z).
  { unfold i64_add. rewrite Z.mod_small by lia. lia. }
  rewrite E. rewrite IH; [lia|exact Hl|lia|lia].
Qed.


Lemma obj_get_set_ne (k k' : string) (v : Value) (l : list (string * Value)) :
  k <> k' ->
  List.find (fun kv => String.eqb k kv.1) (obj_set k' v l) = List.find (fun kv => String.eqb k kv.1) l.
Proof.
  intros Hne. induction l as [|[k1 v1] l IH]; simpl.
  - rewrite (proj2 (String.eqb_neq k k') Hne). reflexivity.
  - destruct (String.eqb k' k1) eqn:E.
    + apply String.eqb_eq in E. subst k1. simpl.
      rewrite (proj2 (String.eqb_neq k k') Hne). reflexivity.
    + simpl. destruct (String.eqb k k1); [reflexivity|exact IH].
Qed.

Lemma obj_get_set_eq (k : string) (v : Value) (l : list (string * Value)) :
  List.find (fun kv => String.eqb k kv.1) (obj_set k v l) = Some (k, v).
Proof.
  induction l as [|[k1 v1] l IH]; simpl; [rewrite String.eqb_refl; reflexivity|].
  destruct (String.eqb k k1) eqn:E; simpl; [rewrite String.eqb_refl; reflexivity|].
  rewrite E. exact IH.
Qed.

Lemma value_get_set_ne (k k' : string) (v o : Value) :
  k <> k' -> (exists l, o = VObject l) -> value_get k (value_set k' v o) = value_get k o.
Proof.
  intros Hne [l ->]. simpl. rewrite obj_get_set_ne by exact Hne. reflexivity.
Qed.

Lemma value_get_set_eq (k : string) (v o : Value) :
  (exists l, o = VObject l) -> value_get k (value_set k v o) = Some v.
Proof. intros [l ->]. simpl. rewrite obj_get_set_eq. reflexivity. Qed.

(** X20: the discovery document announces the sensor's state topic (the
    one [publish_stats] publishes on), a unique id ["<node_id>_<id>"], the
    device document given, and a device class and an icon (["mdi:"]
    prefixed) exactly when the sensor has them: the later field writes
    never overwrite the first fields. *)
Theorem discovery_config_fields (s : Sensor) (device_name node_id : string) (info : Value) :
  let doc := disovery_config s device_name node_id info in
  value_get "state_topic" doc = Some (VString (sensor_topic s node_id)) /\
  value_get "unique_id" doc = Some (VString (node_id ++ "_" ++ id s)) /\
  value_get "device" doc = Some info /\
  value_get "name" doc = Some (VString (device_name ++ " " ++ name s)) /\
  value_get "device_class" doc = (fun dc => VString (device_class_name dc)) <$> device_class s /\
  value_get "icon" doc = (fun i => VString ("mdi:" ++ i)) <$> icon s.
Proof.
  intros doc. unfold doc, disovery_config.
  set (base := VObject _).
  assert (Hb : exists l, base = VObject l) by (eexists; reflexivity).
  set (c1 := match device_class s with
             | Some dc => value_set "device_class" (VString (device_class_name dc)) base
             | None => base
             end).
  assert (Hc1 : exists l, c1 = VObject l).
  { unfold c1. destruct (device_class s); [|exact Hb].
    destruct Hb as [l ->]. eexists. reflexivity. }
  assert (Hget : forall k, k <> "icon" -> k <> "device_class" ->
            value_get k (match icon s with
                         | Some icon_str => value_set "icon" (VString ("mdi:" ++ icon_str)) c1
                         | None => c1
                         end) = value_get k base).
  { intros k Hi Hd. destruct (icon s); [rewrite value_get_set_ne by assumption|];
      unfold c1; destruct (device_class s); try (rewrite value_get_set_ne by assumption);
      reflexivity. }
  split; [rewrite Hget by discriminate; reflexivity|].
  split; [rewrite Hget by discriminate; reflexivity|].
  split; [rewrite Hget by discriminate; reflexivity|].
  split; [rewrite Hget by discriminate; reflexivity|].
  split.
  - destruct (icon s); [rewrite value_get_set_ne by (discriminate || exact Hc1)|];
      unfold c1; destruct (device_class s);
      try (rewrite value_get_set_eq by exact Hb); reflexivity.
  - destruct (icon s); [rewrite value_get_set_eq by exact Hc1; reflexivity|].
    unfold c1. destruct (device_class s); [rewrite value_get_set_ne by (discriminate || exact Hb)|];
      reflexivity.
Qed.

Lemma ascii_case_lower_upper (a : ascii) : ascii_lower (ascii_upper a) = ascii_lower a.
Proof. destruct a as [[] [] [] [] [] [] [] []]; reflexivity. Qed.

Lemma ascii_case_upper_lower (a : ascii) : ascii_upper (ascii_lower a) = ascii_upper a.
Proof. destruct a as [[] [] [] [] [] [] [] []]; reflexivity. Qed.

Lemma string_map_comp (f g : ascii -> ascii) (s : string) :
  string_map f (string_map g s) = string_map (fun a => f (g a)) s.
Proof. induction s as [|a s IH]; simpl; [reflexivity|]. rewrite IH. reflexivity. Qed.

Lemma string_map_ext (f g : ascii -> ascii) (s : string) :
  (forall a, f a = g a) -> string_map f s = string_map g s.
Proof. intros H. induction s as [|a s IH]; simpl; [reflexivity|]. rewrite H, IH. reflexivity. Qed.





Lemma topics_distinct_witness :
  NoDup (map (fun s => sensor_topic s "unraid_tower") builtin_sensors) /\
  NoDup (map (fun s => discovery_topic s "homeassistant" "unraid_tower") builtin_sensors).
Proof.
  apply topics_distinct. apply (bool_decide_unpack _). vm_compute. reflexivity.
Defined.

Lemma apply_config_shape_witness :
  NoDup (map id (drop (length builtin_sensors) (apply_config (Some uptime_config) builtin_sensors))) /\
  forall k, In k (map id (drop (length builtin_sensors) (apply_config (Some uptime_config) builtin_sensors)))
            <-> exists cs, sensors uptime_config !! k = Some (CommandS cs).
Proof.
  apply (proj2 (proj2 (apply_config_shape (Some uptime_config) builtin_sensors)) uptime_config
           eq_refl).
  apply deserialize_sensors_wf.
Defined.




Lemma publish_discovery_messages_witness :
  publish_discovery (fun _ => "{}") (sample_full false false) (Some (fun _ _ _ => None)) [] None
  = (map (fun s => Publish (discovery_topic s "homeassistant" "unraid_tower")
                     ((fun _ => "{}") (disovery_config s "tower" "unraid_tower"
                                         (get_device_info "tower" None))) true)
         (List.filter enabled (unraid_sensors sample_unraid [])), None).
Proof.
  apply (proj1 (proj2 (publish_discovery_messages (fun _ => "{}") (sample_full false false)
                         (Some (fun _ _ _ => None)) [] None)) eq_refl eq_refl _ eq_refl).
  reflexivity.
Defined.

Lemma publish_discovery_stops_at_error_witness :
  publish_discovery (fun _ => "{}") (sample_full false false) (Some (fun _ _ r => None)) [] None
  = publish_discovery (fun _ => "{}") (sample_full false false) (Some (fun _ _ _ => None)) [] None.
Proof.
  apply (proj2 (publish_discovery_stops_at_error (fun _ => "{}") (sample_full false false)
                  (fun _ _ r => None) [] None)).
  vm_compute. reflexivity.
Defined.

Lemma publish_stats_outputs_witness :
  (publish_stats Datatypes.unit (fun _ st => (Some "1", st)) (sample_full false false) None [] tt).1
  = ([], None).
Proof.
  apply (proj2 (proj2 (publish_stats_outputs Datatypes.unit (fun _ st => (Some "1", st))
                         (sample_full false false) None [] tt))); reflexivity.
Defined.


